(** * SMCReader: a shallow embedding of [assets/code/renderme_360_reader.py]

    The reader opens one HDF5 container (an ".smc" file) and serves
    calibration matrices, colour and mask images, audio and 2D/3D keypoints
    out of it.  The development below follows the Python class method by
    method.

    Conventions of the model.
    - Python exceptions are values of [exn]; a call returns [Ok v] or
      [Raise e].  An [assert] that fails raises [AssertionError] with the
      message the source builds.
    - A str is a sequence of characters of code point below 256; a name
      handed to the container holds no NUL character.
    - The container is a tree of named groups and datasets, without soft or
      external links.  Where the reader hands a name to h5py ([name in
      g.keys()], [g[name]]), the name is resolved as h5py resolves it: as a
      path, relative to the group or, with a leading slash, to the root.
    - Arrays are a shape together with the row-major list of their elements;
      element types are not tracked, a floating-point payload is carried as an
      opaque number and never computed on.
    - [cv2.imdecode] is a parameter of the development.
    - Arguments are typed after the docstrings: a camera id or a frame index
      is an int or a str, a frame selector is one index, a list of indices,
      [None], or a value of some other type.
    - What the reader writes to the terminal ([print], tqdm's progress bar)
      is not part of the model. *)

From Stdlib Require Import ZArith String Ascii List Bool Lia.
From Stdlib Require Import Decimal DecimalString DecimalPos.
From Stdlib Require Import Sorted Permutation.
Import ListNotations.

Set Warnings "-register-all".

Open Scope string_scope.
Open Scope Z_scope.

(* ------------------------------------------------------------------ *)
(** ** Python builtins used by the reader *)

Module Py.

(** Exceptions the reader can end with. *)
Inductive exn : Type :=
| AssertionError (msg : string)
| KeyError (key : string)
| ValueError (msg : string)
| TypeError (msg : string)
| AttributeError (attr : string)
| UnboundLocalError (var : string)
| AxisError (axis : Z) (ndim : nat)
| InvalidLiteral (literal : string)
| EmptyName
| ClosedFileError.
(* [KeyError k] is the [KeyError] of a lookup under the name [k]. *)
(* [InvalidLiteral s] is the [ValueError] of [int(s)], whose message shows the
   repr of [s]. *)
(* [EmptyName] is the [ValueError] of h5py when the name to open is the empty
   str. *)
(* [ClosedFileError] stands for whatever h5py raises on an access through a
   file that has been closed. *)

Inductive result (A : Type) : Type :=
| Ok (a : A)
| Raise (e : exn).
Arguments Ok {A} a.
Arguments Raise {A} e.

Definition bind {A B} (m : result A) (k : A -> result B) : result B :=
  match m with
  | Ok a => k a
  | Raise e => Raise e
  end.

(** [assert cond, msg] *)
Definition assert (cond : bool) (msg : string) : result unit :=
  if cond then Ok tt else Raise (AssertionError msg).

(** An int or a str: what the docstrings allow for a camera id and for a
    frame index. *)
Inductive index : Type :=
| PyInt (z : Z)
| PyStr (s : string).

(** [str(n)] for an int. *)
Definition str_of_int (z : Z) : string :=
  NilZero.string_of_int (Z.to_int z).

(** [str(x)] *)
Definition str (x : index) : string :=
  match x with
  | PyInt z => str_of_int z
  | PyStr s => s
  end.

(** Whitespace that [int(s)] strips from both ends: tab to carriage return
    and the space, and of the characters above 127 the next-line and the
    no-break space, which [int] reads as spaces. *)
Definition is_space (c : ascii) : bool :=
  let n := nat_of_ascii c in
  (((9 <=? n) && (n <=? 13)) || (n =? 32) || (n =? 133) || (n =? 160))%nat.

Definition is_digit (c : ascii) : bool :=
  let n := nat_of_ascii c in
  ((48 <=? n) && (n <=? 57))%nat.

Fixpoint lstrip (s : string) : string :=
  match s with
  | String c r => if is_space c then lstrip r else s
  | EmptyString => EmptyString
  end.

Fixpoint rstrip (s : string) : string :=
  match s with
  | String c r =>
      match rstrip r with
      | EmptyString => if is_space c then EmptyString else String c EmptyString
      | r' => String c r'
      end
  | EmptyString => EmptyString
  end.

(** Digits of an integer literal: single underscores may separate digits.
    [prev] tells whether the previous character was a digit. *)
Fixpoint literal_digits (prev : bool) (s : string) : option string :=
  match s with
  | EmptyString => if prev then Some EmptyString else None
  | String c r =>
      if is_digit c then option_map (String c) (literal_digits true r)
      else if Ascii.eqb c "_" then
             if prev then literal_digits false r else None
           else None
  end.

Definition nat_literal (s : string) : option Z :=
  match literal_digits false s with
  | Some d => option_map Z.of_uint (NilZero.uint_of_string d)
  | None => None
  end.

(** [int(s)] for a str, base 10; [None] is [ValueError].  No character above
    127 and below 256 is a decimal digit. *)
Definition int_of_str (s : string) : option Z :=
  match rstrip (lstrip s) with
  | String "-" r => option_map Z.opp (nat_literal r)
  | String "+" r => nat_literal r
  | t => nat_literal t
  end.

(** [int(x)] *)
Definition int (x : index) : result Z :=
  match x with
  | PyInt z => Ok z
  | PyStr s =>
      match int_of_str s with
      | Some z => Ok z
      | None => Raise (InvalidLiteral s)
      end
  end.

(** ['%02d' % i] *)
Definition fmt_02d (i : Z) : string :=
  let s := str_of_int i in
  if (String.length s <? 2)%nat then "0" ++ s else s.

(** [range(lo, hi)] *)
Definition range (lo hi : Z) : list Z :=
  map (fun k => lo + Z.of_nat k) (seq 0 (Z.to_nat (hi - lo))).

(** [s.split(sep)] for a one-character separator. *)
Fixpoint split (sep : ascii) (s : string) : list string :=
  match s with
  | EmptyString => [EmptyString]
  | String c r =>
      if Ascii.eqb c sep then EmptyString :: split sep r
      else match split sep r with
           | h :: t => String c h :: t
           | [] => [String c EmptyString]
           end
  end.

(** [x in l] for a list of str. *)
Definition str_in (x : string) (l : list string) : bool :=
  existsb (String.eqb x) l.

(** [sub in s] for two str. *)
Fixpoint contains (sub s : string) : bool :=
  prefix sub s ||
  match s with
  | String _ r => contains sub r
  | EmptyString => false
  end.

(** [s.split(sep)[0]] for a one-character separator. *)
Fixpoint split_head (sep : ascii) (s : string) : string :=
  match s with
  | String c r => if Ascii.eqb c sep then EmptyString else String c (split_head sep r)
  | EmptyString => EmptyString
  end.

(** [sorted(l)] for a list of int: insertion into a sorted list. *)
Fixpoint insert (x : Z) (l : list Z) : list Z :=
  match l with
  | [] => [x]
  | y :: r => if x <=? y then x :: l else y :: insert x r
  end.

Fixpoint sorted (l : list Z) : list Z :=
  match l with
  | [] => []
  | x :: r => insert x (sorted r)
  end.

(** A dict with str keys, in insertion order. *)
Definition dict (V : Type) : Type := list (string * V).

Fixpoint dict_get {V} (k : string) (d : dict V) : option V :=
  match d with
  | [] => None
  | (k', v) :: r => if String.eqb k k' then Some v else dict_get k r
  end.

(** [d[k] = v] *)
Fixpoint dict_set {V} (k : string) (v : V) (d : dict V) : dict V :=
  match d with
  | [] => [(k, v)]
  | (k', v') :: r =>
      if String.eqb k k' then (k', v) :: r else (k', v') :: dict_set k v r
  end.

(** [d.setdefault(k, v)], for its effect on [d]. *)
Definition dict_setdefault {V} (k : string) (v : V) (d : dict V) : dict V :=
  match dict_get k d with
  | Some _ => d
  | None => dict_set k v d
  end.

End Py.

Export Py.

Notation "x <- m ;; k" := (bind m (fun x => k))
  (at level 61, m at next level, right associativity).
Notation "m ;;; k" := (bind m (fun _ => k))
  (at level 61, right associativity).


(* ------------------------------------------------------------------ *)
(** ** numpy arrays *)

Module Np.

(** One element of an array: a number, or a Python object held by an array of
    dtype object ([None], a str). *)
Inductive elem : Type :=
| Num (z : Z)
| NoneObj
| StrObj (s : string).

Record ndarray : Type := mk_ndarray {
  shape : list nat;
  data : list elem
}.

(** Number of elements a shape announces. *)
Definition size_of (sh : list nat) : nat := fold_right Nat.mul 1%nat sh.

Definition well_shaped (a : ndarray) : Prop :=
  length (data a) = size_of (shape a).

Fixpoint shape_eqb (s t : list nat) : bool :=
  match s, t with
  | [], [] => true
  | x :: s', y :: t' => Nat.eqb x y && shape_eqb s' t'
  | _, _ => false
  end.

(** [np.stack(arrays, axis=0)] on arrays. *)
Definition stack (arrays : list ndarray) : result ndarray :=
  match arrays with
  | [] => Raise (ValueError "need at least one array to stack")
  | a :: rest =>
      if forallb (fun b => shape_eqb (shape b) (shape a)) rest
      then Ok (mk_ndarray (length arrays :: shape a) (concat (map data arrays)))
      else Raise (ValueError "all input arrays must have the same shape")
  end.

(** [a[i]] for an array of at least one dimension: the [i]-th slice along
    the leading axis. *)
Definition slice (i : nat) (a : ndarray) : ndarray :=
  let sh := tl (shape a) in
  mk_ndarray sh (firstn (size_of sh) (skipn (i * size_of sh) (data a))).

(** What [cv2.imdecode(buf, cv2.IMREAD_COLOR)] returns when it succeeds: an
    array of shape (height, width, 3), each pixel its B, G and R value. *)
Record bgr_image : Type := mk_bgr {
  height : nat;
  width : nat;
  pixels : list (Z * Z * Z)
}.

Definition of_bgr (img : bgr_image) : ndarray :=
  mk_ndarray [height img; width img; 3%nat]
    (flat_map (fun p => let '(b, g, r) := p in [Num b; Num g; Num r]) (pixels img)).

Definition channel_max (p : Z * Z * Z) : Z :=
  let '(b, g, r) := p in Z.max (Z.max b g) r.

(** A two-dimensional array of numbers: what is left of a decoded image once
    its channel axis is reduced. *)
Record gray_image : Type := mk_gray {
  gheight : nat;
  gwidth : nat;
  values : list Z
}.

(** [np.max(img, 2)] on a decoded image. *)
Definition max_axis2 (img : bgr_image) : gray_image :=
  mk_gray (height img) (width img) (map channel_max (pixels img)).

(** [a.astype(np.uint8)]: every element wraps around modulo 256. *)
Definition astype_uint8 (a : gray_image) : gray_image :=
  mk_gray (gheight a) (gwidth a) (map (fun z => z mod 256) (values a)).

Definition of_gray (a : gray_image) : ndarray :=
  mk_ndarray [gheight a; gwidth a] (map Num (values a)).

End Np.

Export Np.

(* ------------------------------------------------------------------ *)
(** ** The HDF5 container, as h5py shows it *)

Module H5.

(** An attribute value: a number, a str, or a small array of numbers. *)
Inductive attr : Type :=
| AInt (z : Z)
| AStr (s : string)
| AArr (l : list Z).

(** A node of the file: a dataset holding an array, or a group of named
    nodes.  Both carry attributes. *)
Inductive node : Type :=
| Dataset (attrs : list (string * attr)) (value : ndarray)
| Group (attrs : list (string * attr)) (items : list (string * node)).

(** An [h5py.File]: the root group, and whether the file is still open. *)
Record file : Type := mk_file {
  root : node;
  is_open : bool
}.

Fixpoint assoc {V} (k : string) (l : list (string * V)) : option V :=
  match l with
  | [] => None
  | (k', v) :: r => if String.eqb k k' then Some v else assoc k r
  end.

(** A name that is one path component: not empty, not the dot, without a
    slash.  The names of the links of a group are such names. *)
Definition plain_name (k : string) : bool :=
  negb (String.eqb k "") && negb (String.eqb k ".") &&
  forallb (fun c => negb (Ascii.eqb c "/")) (list_ascii_of_string k).

(** [g[k]] for the name [k] of a link of [g]: the node the link leads to. *)
Definition getitem (g : node) (k : string) : result node :=
  match g with
  | Group _ items =>
      match (if plain_name k then assoc k items else None) with
      | Some n => Ok n
      | None => Raise (KeyError k)
      end
  | Dataset _ _ => Raise (ValueError "Field names only allowed for compound types")
  end.

(** The components of a path that h5py and HDF5 walk through: duplicate and
    trailing slashes leave empty components, which are ignored. *)
Definition components (path : string) : list string :=
  filter (fun p => negb (String.eqb p "")) (split "/" path).

(** The group a path starts from: the root when the path starts with a
    slash. *)
Definition start_of (root g : node) (path : string) : node :=
  match path with
  | String "/" _ => root
  | _ => g
  end.

(** h5py's test that a path exists: every component but the last must be a
    link to a group, the last a link; a dot stays in the group. *)
Fixpoint valid_from (cur : node) (parts : list string) : bool :=
  match parts with
  | [] => true
  | p :: rest =>
      if String.eqb p "." then valid_from cur rest
      else
        match cur with
        | Group _ items =>
            match assoc p items with
            | None => false
            | Some n =>
                match rest, n with
                | [], _ => true
                | _ :: _, Group _ _ => valid_from n rest
                | _ :: _, Dataset _ _ => false
                end
            end
        | Dataset _ _ => false
        end
  end.

(** [name in g], for a group [g] of the file whose root is [root]. *)
Definition path_valid (root g : node) (name : string) : bool :=
  if String.eqb name "" then false
  else valid_from (start_of root g name) (components name).

(** [name in g.keys()] *)
Definition in_keys (root g : node) (name : string) : result bool :=
  match g with
  | Group _ _ => Ok (path_valid root g name)
  | Dataset _ _ => Raise (AttributeError "keys")
  end.

(** HDF5's walk along a path, opening the object at its end; [name] is the
    whole path, for the error. *)
Fixpoint open_from (name : string) (cur : node) (parts : list string) : result node :=
  match parts with
  | [] => Ok cur
  | p :: rest =>
      if String.eqb p "." then open_from name cur rest
      else
        match cur with
        | Group _ items =>
            match assoc p items with
            | Some n => open_from name n rest
            | None => Raise (KeyError name)
            end
        | Dataset _ _ => Raise (KeyError name)
        end
  end.

(** [g[name]] for any name, on a node [g] of the file whose root is [root]. *)
Definition open_path (root g : node) (name : string) : result node :=
  match g with
  | Group _ _ =>
      if String.eqb name "" then Raise EmptyName
      else open_from name (start_of root g name) (components name)
  | Dataset _ _ => Raise (ValueError "Field names only allowed for compound types")
  end.

(** [g.keys()], in the order the group iterates. *)
Definition keys (g : node) : result (list string) :=
  match g with
  | Group _ items => Ok (map fst items)
  | Dataset _ _ => Raise (AttributeError "keys")
  end.

(** [d[()]] *)
Definition read (d : node) : result ndarray :=
  match d with
  | Dataset _ v => Ok v
  | Group _ _ => Raise (TypeError "Accessing a group is done with bytes or str, not <class 'tuple'>")
  end.

Definition attrs_of (n : node) : list (string * attr) :=
  match n with
  | Dataset a _ => a
  | Group a _ => a
  end.

(** [n.attrs[k]] *)
Definition getattr (n : node) (k : string) : result attr :=
  match assoc k (attrs_of n) with
  | Some a => Ok a
  | None => Raise (KeyError k)
  end.

(** [f[k]] on the file itself: any access needs the file open. *)
Definition file_getitem (f : file) (k : string) : result node :=
  if is_open f then getitem (root f) k else Raise ClosedFileError.

(** [f.attrs[k]] on the file itself. *)
Definition file_getattr (f : file) (k : string) : result attr :=
  if is_open f then getattr (root f) k else Raise ClosedFileError.

(** [f.close()] *)
Definition close (f : file) : file := mk_file (root f) false.

End H5.

Export H5.

(* ------------------------------------------------------------------ *)
(** ** Values the accessors return *)

(** [None], an array, or a handle on a node of the container. *)
Inductive pyobj : Type :=
| PNone
| PArray (a : ndarray)
| PHandle (n : node).

(** How numpy reads one item handed to [np.stack]: an array is itself, a
    dataset is read, [None] is an object scalar, and a group, being a mapping
    that iterates over its keys, becomes the array of its keys. *)
Definition asanyarray (o : pyobj) : ndarray :=
  match o with
  | PNone => mk_ndarray [] [NoneObj]
  | PArray a => a
  | PHandle (Dataset _ v) => v
  | PHandle (Group _ items) =>
      mk_ndarray [length items] (map (fun kv => StrObj (fst kv)) items)
  end.

(** [np.stack(rs, axis=0)] *)
Definition np_stack (rs : list pyobj) : result pyobj :=
  a <- stack (map asanyarray rs) ;;
  Ok (PArray a).

(** A [for] loop that appends [f x] to a list for every [x], and stops at the
    first exception. *)
Fixpoint for_each {A B} (f : A -> result B) (l : list A) : result (list B) :=
  match l with
  | [] => Ok []
  | x :: r =>
      y <- f x ;;
      ys <- for_each f r ;;
      Ok (y :: ys)
  end.

(** The frame selector [Frame_id]: [None], one index, a list of indices, or
    a value of another class, of which the name is kept; that class is none of
    list, int, str and NoneType and no subclass of them (as bool is of int). *)
Inductive selector : Type :=
| FrameNone
| FrameIdx (i : index)
| FrameList (l : list index)
| FrameOther (type_name : string).

(** [isinstance(Frame_id, (list, int, str, type(None)))] *)
Definition isinstance_frame (sel : selector) : bool :=
  match sel with
  | FrameOther _ => false
  | _ => true
  end.

(** [type(Frame_id)] as an f-string shows it. *)
Definition type_repr (sel : selector) : string :=
  match sel with
  | FrameNone => "<class 'NoneType'>"
  | FrameIdx (PyInt _) => "<class 'int'>"
  | FrameIdx (PyStr _) => "<class 'str'>"
  | FrameList _ => "<class 'list'>"
  | FrameOther t => "<class '" ++ t ++ "'>"
  end.

(* ------------------------------------------------------------------ *)
(** ** The reader *)

(** The calibration of one camera: matrix type to matrix. *)
Definition calibration : Type := dict ndarray.

(** The fields of an [SMCReader]. *)
Record SMCReader : Type := mk_reader {
  smc : file;
  __calibration_dict__ : option (dict calibration);
  actor_id : attr;
  performance_part : attr;
  capture_date : attr;
  actor_info : dict attr;
  Camera_info : dict attr
}.

Definition with_smc (f : file) (r : SMCReader) : SMCReader :=
  mk_reader f (__calibration_dict__ r) (actor_id r) (performance_part r)
    (capture_date r) (actor_info r) (Camera_info r).

Definition with_calibration_dict (c : option (dict calibration)) (r : SMCReader) : SMCReader :=
  mk_reader (smc r) c (actor_id r) (performance_part r)
    (capture_date r) (actor_info r) (Camera_info r).

(** [__init__(self, file_path)], once [h5py.File(file_path, 'r')] has opened
    the file [f]. *)
Definition __init__ (f : file) : result SMCReader :=
  actor_id <- file_getattr f "actor_id" ;;
  performance_part <- file_getattr f "performance_part" ;;
  capture_date <- file_getattr f "capture_date" ;;
  age <- file_getattr f "age" ;;
  color <- file_getattr f "color" ;;
  gender <- file_getattr f "gender" ;;
  height <- file_getattr f "height" ;;
  weight <- file_getattr f "weight" ;;
  cams <- file_getitem f "Camera" ;;
  num_device <- getattr cams "num_device" ;;
  cams <- file_getitem f "Camera" ;;
  num_frame <- getattr cams "num_frame" ;;
  cams <- file_getitem f "Camera" ;;
  resolution <- getattr cams "resolution" ;;
  Ok (mk_reader f None actor_id performance_part capture_date
        [("age", age); ("color", color); ("gender", gender);
         ("height", height); ("weight", weight)]
        [("num_device", num_device); ("num_frame", num_frame);
         ("resolution", resolution)]).

(** [get_actor_info(self)] *)
Definition get_actor_info (r : SMCReader) : dict attr := actor_info r.

(** [get_Camera_info(self)] *)
Definition get_Camera_info (r : SMCReader) : dict attr := Camera_info r.

(** Methods that assign to a field of [self]: the reader is threaded through,
    and an exception keeps the assignments made before it. *)
Definition M (A : Type) : Type := SMCReader -> result A * SMCReader.

Definition ret {A} (a : A) : M A := fun r => (Ok a, r).

Definition bindM {A B} (m : M A) (k : A -> M B) : M B :=
  fun r =>
    match m r with
    | (Ok a, r') => k a r'
    | (Raise e, r') => (Raise e, r')
    end.

(** An expression that only reads [self]. *)
Definition eval {A} (e : SMCReader -> result A) : M A := fun r => (e r, r).

Notation "x <~ m ;; k" := (bindM m (fun x => k))
  (at level 61, m at next level, right associativity).
Notation "m ~;; k" := (bindM m (fun _ => k))
  (at level 61, right associativity).

(** A [for] loop run for its effect on [self]. *)
Fixpoint for_ {A} (l : list A) (body : A -> M unit) : M unit :=
  match l with
  | [] => ret tt
  | x :: rest => body x ~;; for_ rest body
  end.

(** [self.__calibration_dict__ = d] *)
Definition set_calibration_dict (d : dict calibration) : M unit :=
  fun r => (Ok tt, with_calibration_dict (Some d) r).

(** [self.__calibration_dict__.setdefault(ci, dict())] *)
Definition calibration_setdefault (ci : string) : M unit :=
  fun r =>
    match __calibration_dict__ r with
    | Some d => (Ok tt, with_calibration_dict (Some (dict_setdefault ci [] d)) r)
    | None => (Raise (AttributeError "setdefault"), r)
    end.

(** [self.__calibration_dict__[ci][mt] = v]: the inner dict is the object
    stored under [ci], so the store shows in the outer dict. *)
Definition calibration_setitem (ci mt : string) (v : ndarray) : M unit :=
  fun r =>
    match __calibration_dict__ r with
    | Some d =>
        match dict_get ci d with
        | Some inner =>
            (Ok tt, with_calibration_dict (Some (dict_set ci (dict_set mt v inner) d)) r)
        | None => (Raise (KeyError ci), r)
        end
    | None => (Raise (TypeError "'NoneType' object is not subscriptable"), r)
    end.

(** [self.smc['Calibration'][ci][mt][()]], for [mt] one of D, K and RT. *)
Definition read_matrix (ci mt : string) (r : SMCReader) : result ndarray :=
  g <- file_getitem (smc r) "Calibration" ;;
  c <- open_path (root (smc r)) g ci ;;
  d <- getitem c mt ;;
  read d.

Definition matrix_types : list string := ["D"; "K"; "RT"].

(** The body of the loop of [get_Calibration_all], for the camera [ci]. *)
Definition materialize_camera (ci : string) : M unit :=
  calibration_setdefault ci ~;;
  for_ matrix_types (fun mt =>
    v <~ eval (read_matrix ci mt) ;;
    calibration_setitem ci mt v).

(** [get_Calibration_all(self)]; it returns the object stored in
    [self.__calibration_dict__]. *)
Definition get_Calibration_all : M (option (dict calibration)) :=
  fun r =>
    match __calibration_dict__ r with
    | Some d => (Ok (Some d), r)
    | None =>
        (set_calibration_dict [] ~;;
         cis <~ eval (fun r => g <- file_getitem (smc r) "Calibration" ;; keys g) ;;
         for_ cis materialize_camera ~;;
         eval (fun r => Ok (__calibration_dict__ r))) r
    end.

(** The loop of [get_Calibration] that fills [rs]. *)
Fixpoint fill_calibration (r : SMCReader) (Camera_id : string)
    (mts : list string) (rs : calibration) : result calibration :=
  match mts with
  | [] => Ok rs
  | k :: rest =>
      v <- read_matrix Camera_id k r ;;
      fill_calibration r Camera_id rest (dict_set k v rs)
  end.

(** [get_Calibration(self, Camera_id)] *)
Definition get_Calibration (r : SMCReader) (Camera_id : index) : result calibration :=
  let Camera_id := str Camera_id in
  g <- file_getitem (smc r) "Calibration" ;;
  present <- in_keys (root (smc r)) g Camera_id ;;
  assert present ("Invalid Camera_id " ++ Camera_id) ;;;
  fill_calibration r Camera_id matrix_types [].

Section Images.

(** [cv2.imdecode(buf, cv2.IMREAD_COLOR)]: the decoded image, or [None] when
    the bytes are not an image. *)
Variable imdecode : ndarray -> option bgr_image.

(** [__read_color_from_bytes__(self, color_array)] *)
Definition __read_color_from_bytes__ (color_array : ndarray) : option bgr_image :=
  imdecode color_array.

(** [self.smc["Camera"][Camera_id][Image_type]] *)
Definition image_group (r : SMCReader) (Camera_id Image_type : string) : result node :=
  cams <- file_getitem (smc r) "Camera" ;;
  cam <- open_path (root (smc r)) cams Camera_id ;;
  open_path (root (smc r)) cam Image_type.

(** The three assertions every call of [get_img] starts with. *)
Definition get_img_asserts (r : SMCReader) (Camera_id Image_type : string)
    (Frame_id : selector) : result unit :=
  cams <- file_getitem (smc r) "Camera" ;;
  camera_present <- in_keys (root (smc r)) cams Camera_id ;;
  assert camera_present ("Invalid Camera_id " ++ Camera_id) ;;;
  cams <- file_getitem (smc r) "Camera" ;;
  cam <- open_path (root (smc r)) cams Camera_id ;;
  type_present <- in_keys (root (smc r)) cam Image_type ;;
  assert type_present ("Invalid Image_type " ++ Image_type) ;;;
  assert (isinstance_frame Frame_id)
    ("Invalid Frame_id datatype " ++ type_repr Frame_id).

(** The branch of [get_img] for one frame, [Frame_id] an int or a str. *)
Definition get_img_frame (r : SMCReader) (Camera_id Image_type : string)
    (Frame_id : index) : result pyobj :=
  let Frame_id := str Frame_id in
  g <- image_group r Camera_id Image_type ;;
  frame_present <- in_keys (root (smc r)) g Frame_id ;;
  assert frame_present ("Invalid Frame_id " ++ Frame_id) ;;;
  img_color <-
    (if str_in Image_type ["color"; "mask"] then
       g <- image_group r Camera_id Image_type ;;
       d <- open_path (root (smc r)) g Frame_id ;;
       img_byte <- read d ;;
       Ok (Some (__read_color_from_bytes__ img_byte))
     else Ok None) ;;
  if String.eqb Image_type "mask" then
    match img_color with
    | Some (Some img) => Ok (PArray (of_gray (astype_uint8 (max_axis2 img))))
    | Some None => Raise (AxisError 2 0)
    | None => Raise (UnboundLocalError "img_color")
    end
  else
    match img_color with
    | Some (Some img) => Ok (PArray (of_bgr img))
    | Some None => Ok PNone
    | None => Raise (UnboundLocalError "img_color")
    end.

(** [get_img(self, Camera_id, Image_type, fi)] as the loop of a batch calls
    it: a whole call, on one frame. *)
Definition get_img_one (r : SMCReader) (Camera_id Image_type : string)
    (fi : index) : result pyobj :=
  get_img_asserts r Camera_id Image_type (FrameIdx fi) ;;;
  get_img_frame r Camera_id Image_type fi.

(** [get_img(self, Camera_id, Image_type, Frame_id=None)] *)
Definition get_img (r : SMCReader) (Camera_id : index) (Image_type : string)
    (Frame_id : selector) : result pyobj :=
  let Camera_id := str Camera_id in
  get_img_asserts r Camera_id Image_type Frame_id ;;;
  match Frame_id with
  | FrameIdx fi => get_img_frame r Camera_id Image_type fi
  | FrameNone =>
      g <- image_group r Camera_id Image_type ;;
      ks <- keys g ;;
      ids <- for_each (fun l => int (PyStr l)) ks ;;
      rs <- for_each (fun fi => get_img_one r Camera_id Image_type (PyInt fi)) (sorted ids) ;;
      np_stack rs
  | FrameList Frame_id_list =>
      rs <- for_each (get_img_one r Camera_id Image_type) Frame_id_list ;;
      np_stack rs
  | FrameOther _ => Raise (UnboundLocalError "Frame_id_list")
  end.

End Images.

(** [get_audio(self)] *)
Definition get_audio (r : SMCReader) : result pyobj :=
  match performance_part r with
  | AStr part =>
      if negb (contains "s" (split_head "_" part)) then Ok PNone
      else
        cams <- file_getitem (smc r) "Camera" ;;
        cam <- getitem cams "00" ;;
        data <- getitem cam "audio" ;;
        Ok (PHandle data)
  | _ => Raise (AttributeError "split")
  end.

(** [[f'%02d' % i for i in range(18, 33)]] *)
Definition detection_cameras : list string := map fmt_02d (range 18 33).

(** The two assertions and the test for a missing camera that every call of
    [get_Keypoints2d] starts with; [Ok false] when the camera has no result. *)
Definition get_Keypoints2d_checks (r : SMCReader) (Camera_id : string)
    (Frame_id : selector) : result bool :=
  assert (str_in Camera_id detection_cameras) ("Invalid Camera_id " ++ Camera_id) ;;;
  assert (isinstance_frame Frame_id)
    ("Invalid Frame_id datatype: " ++ type_repr Frame_id) ;;;
  g <- file_getitem (smc r) "Keypoints2d" ;;
  in_keys (root (smc r)) g Camera_id.

(** The branch of [get_Keypoints2d] for one frame. *)
Definition get_Keypoints2d_frame (r : SMCReader) (Camera_id : string)
    (Frame_id : index) : result pyobj :=
  let Frame_id := str Frame_id in
  g <- file_getitem (smc r) "Keypoints2d" ;;
  cam <- open_path (root (smc r)) g Camera_id ;;
  d <- open_path (root (smc r)) cam Frame_id ;;
  Ok (PHandle d).

(** [get_Keypoints2d(self, Camera_id, fi)] as the loop of a batch calls it. *)
Definition get_Keypoints2d_one (r : SMCReader) (Camera_id : string)
    (fi : index) : result pyobj :=
  present <- get_Keypoints2d_checks r Camera_id (FrameIdx fi) ;;
  if negb present then Ok PNone else get_Keypoints2d_frame r Camera_id fi.

(** [get_Keypoints2d(self, Camera_id, Frame_id=None)] *)
Definition get_Keypoints2d (r : SMCReader) (Camera_id : index)
    (Frame_id : selector) : result pyobj :=
  let Camera_id := str Camera_id in
  present <- get_Keypoints2d_checks r Camera_id Frame_id ;;
  if negb present then Ok PNone
  else
    match Frame_id with
    | FrameIdx fi => get_Keypoints2d_frame r Camera_id fi
    | FrameNone =>
        g <- file_getitem (smc r) "Keypoints2d" ;;
        cam <- open_path (root (smc r)) g Camera_id ;;
        Ok (PHandle cam)
    | FrameList Frame_id_list =>
        rs <- for_each (get_Keypoints2d_one r Camera_id) Frame_id_list ;;
        np_stack rs
    | FrameOther _ => Raise (UnboundLocalError "Frame_id_list")
    end.

(** The truth value, in an [assert], of [n < a] for an int [n] and an
    attribute value [a]; against an array the comparison is an array, which has
    a truth value when it has one element. *)
Definition int_lt_attr (n : Z) (a : attr) : result bool :=
  match a with
  | AInt m => Ok (n <? m)
  | AStr _ => Raise (TypeError "'<' not supported between instances of 'int' and 'str'")
  | AArr [m] => Ok (n <? m)
  | AArr _ => Raise (ValueError "The truth value of an array is ambiguous")
  end.

(** The branch of [get_Keypoints3d] for one frame, which is also the whole
    call the loop of a batch makes. *)
Definition get_Keypoints3d_frame (r : SMCReader) (Frame_id : index) : result pyobj :=
  Frame_id <- int Frame_id ;;
  in_range <-
    (if Frame_id >=? 0 then
       g <- file_getitem (smc r) "Keypoints3d" ;;
       n <- getattr g "num_frame" ;;
       int_lt_attr Frame_id n
     else Ok false) ;;
  assert in_range ("Invalid frame_index " ++ str_of_int Frame_id) ;;;
  g <- file_getitem (smc r) "Keypoints3d" ;;
  d <- open_path (root (smc r)) g (str_of_int Frame_id) ;;
  Ok (PHandle d).

(** [get_Keypoints3d(self, Frame_id=None)] *)
Definition get_Keypoints3d (r : SMCReader) (Frame_id : selector) : result pyobj :=
  match Frame_id with
  | FrameIdx fi => get_Keypoints3d_frame r fi
  | FrameNone =>
      g <- file_getitem (smc r) "Keypoints3d" ;;
      Ok (PHandle g)
  | FrameList Frame_id_list =>
      rs <- for_each (get_Keypoints3d_frame r) Frame_id_list ;;
      np_stack rs
  | FrameOther _ => Raise (UnboundLocalError "Frame_id_list")
  end.

(* ------------------------------------------------------------------ *)
(** ** A small container to run the reader on *)

Module Sample.

Definition matrix (z : Z) : ndarray := mk_ndarray [1%nat; 1%nat] [Num z].

Definition camera_calibration (z : Z) : node :=
  Group [] [("D", Dataset [] (matrix z));
            ("K", Dataset [] (matrix (z + 1)));
            ("RT", Dataset [] (matrix (z + 2)))].

(** An encoded image, for the decoder below: the bytes are the B, G and R
    values of the pixels of one row. *)
Definition encoded (bytes : list Z) : node :=
  Dataset [] (mk_ndarray [length bytes] (map Num bytes)).

Fixpoint triples (l : list elem) : option (list (Z * Z * Z)) :=
  match l with
  | [] => Some []
  | Num b :: Num g :: Num r :: rest => option_map (cons (b, g, r)) (triples rest)
  | _ => None
  end.

(** A decoder to run the reader with: it accepts a buffer of raw B, G, R
    triples and makes a one-row image of them. *)
Definition raw_decode (buf : ndarray) : option bgr_image :=
  match triples (data buf) with
  | Some px => Some (mk_bgr 1 (length px) px)
  | None => None
  end.

Definition keypoints (z : Z) : node :=
  Dataset [] (mk_ndarray [2%nat] [Num z; Num (z + 1)]).

Definition frames : node :=
  Group [] [("0", encoded [10; 200; 30; 7; 7; 9]);
            ("1", encoded [1; 2; 3; 255; 0; 0]);
            ("10", encoded [5; 6; 4; 0; 0; 0]);
            ("2", encoded [9; 8; 7; 20; 40; 30])].

Definition audio : node :=
  Dataset [("sample_rate", AInt 44100)] (mk_ndarray [3%nat] [Num 82; Num 73; Num 70]).

Definition session (part : string) : list (string * attr) :=
  [("actor_id", AStr "0018"); ("performance_part", AStr part);
   ("capture_date", AStr "2022_09_14"); ("age", AInt 27); ("color", AStr "yellow");
   ("gender", AStr "female"); ("height", AInt 165); ("weight", AInt 52)].

Definition rig : list (string * attr) :=
  [("num_device", AInt 3); ("num_frame", AInt 4); ("resolution", AArr [2048; 2448])].

Definition calibration_group : node :=
  Group [] [("00", camera_calibration 100);
            ("05", camera_calibration 500);
            ("18", camera_calibration 1800)].

Definition root : node :=
  Group (session "s1_all")
    [("Calibration", calibration_group);
     ("Camera", Group rig
                  [("00", Group [] [("color", frames); ("mask", frames); ("audio", audio)]);
                   ("05", Group [] [("color", Group [] []); ("mask", Group [] [])])]);
     ("Keypoints2d", Group []
                  [("18", Group [] [("0", keypoints 0); ("1", keypoints 10);
                                    ("10", keypoints 100); ("2", keypoints 20)])]);
     ("Keypoints3d", Group [("num_frame", AInt 2)]
                  [("0", keypoints 1000); ("1", keypoints 2000); ("2", keypoints 3000)])].

(** What [get_Calibration_all] materializes from [calibration_group]. *)
Definition calibration_mapping : dict calibration :=
  [("00", [("D", matrix 100); ("K", matrix 101); ("RT", matrix 102)]);
   ("05", [("D", matrix 500); ("K", matrix 501); ("RT", matrix 502)]);
   ("18", [("D", matrix 1800); ("K", matrix 1801); ("RT", matrix 1802)])].

Definition reader_of (f : file) (part : string) : SMCReader :=
  mk_reader f None (AStr "0018") (AStr part) (AStr "2022_09_14")
    [("age", AInt 27); ("color", AStr "yellow"); ("gender", AStr "female");
     ("height", AInt 165); ("weight", AInt 52)]
    rig.

(** The reader that [__init__] makes of the container. *)
Definition reader : SMCReader := reader_of (mk_file root true) "s1_all".

(** A session without an audio track: the same container under another
    performance part. *)
Definition silent_root : node :=
  match root with
  | Group _ items => Group (session "e0_all") items
  | n => n
  end.

Definition silent_reader : SMCReader := reader_of (mk_file silent_root true) "e0_all".

(** A container whose second camera lacks its intrinsic matrix. *)
Definition broken_root : node :=
  Group (session "s1_all")
    [("Calibration", Group [] [("00", camera_calibration 100);
                               ("01", Group [] [("D", Dataset [] (matrix 7))])]);
     ("Camera", Group rig [])].

Definition broken_reader : SMCReader := reader_of (mk_file broken_root true) "s1_all".

End Sample.

(* ------------------------------------------------------------------ *)
(** ** Properties of the reader's state *)

(** The calibration dict [d] holds complete, fresh entries only: what it has
    for a camera is what [get_Calibration] reads for that camera now. *)
Definition complete_cache (r : SMCReader) (d : dict calibration) : Prop :=
  forall ci cal,
    dict_get ci d = Some cal -> fill_calibration r ci matrix_types [] = Ok cal.

(** A second container: camera ["00"] has colour frames of two widths, and a
    mask group with a key that is no frame id. *)
Module Uneven.

Definition root : node :=
  Group (Sample.session "s1_all")
    [("Camera", Group Sample.rig
        [("00", Group []
            [("color", Group [] [("0", Sample.encoded [10; 200; 30; 7; 7; 9]);
                                 ("1", Sample.encoded [1; 2; 3])]);
             ("mask", Group [] [("0", Sample.encoded [1; 2; 3]);
                                ("preview", Sample.encoded [4; 5; 6])])])])].

Definition reader : SMCReader := Sample.reader_of (mk_file root true) "s1_all".

End Uneven.

(** The attributes [__init__] reads on the root of the file. *)
Definition root_attributes : list string :=
  ["actor_id"; "performance_part"; "capture_date"; "age"; "color"; "gender";
   "height"; "weight"].

(** The attributes [__init__] reads on the Camera group. *)
Definition camera_attributes : list string :=
  ["num_device"; "num_frame"; "resolution"].

(* ------------------------------------------------------------------ *)
(** ** Lemmas on the builtins *)

Example str_of_int_ex : str (PyInt 0) = "0" /\ str (PyInt (-12)) = "-12" /\ str (PyStr "07") = "07".
Proof. repeat split. Qed.

Example int_of_str_ex :
  int_of_str " 007 " = Some 7 /\ int_of_str "-1_000" = Some (-1000) /\
  int_of_str "+5" = Some 5 /\ int_of_str "1__0" = None /\
  int_of_str "" = None /\ int_of_str "1a" = None.
Proof. repeat split. Qed.

Example fmt_02d_ex : fmt_02d 5 = "05" /\ fmt_02d 18 = "18" /\ fmt_02d (-3) = "-3".
Proof. repeat split. Qed.

Example sorted_ex : sorted [10; 2; 0; 11; 1] = [0; 1; 2; 10; 11].
Proof. reflexivity. Qed.

Example split_head_ex :
  split_head "_" "s1_all" = "s1" /\ split_head "_" "e0" = "e0" /\
  contains "s" "s1" = true /\ contains "s" "e0" = false.
Proof. repeat split. Qed.

(** The sample readers are what [__init__] makes of the sample containers. *)
Example init_sample :
  __init__ (mk_file Sample.root true) = Ok Sample.reader /\
  __init__ (mk_file Sample.silent_root true) = Ok Sample.silent_reader /\
  __init__ (mk_file Sample.broken_root true) = Ok Sample.broken_reader /\
  __init__ (close (mk_file Sample.root true)) = Raise ClosedFileError.
Proof. repeat split. Qed.

(** Names as the container resolves them, on the sample's Calibration group. *)
Example path_ex :
  let root := Sample.root in
  let g := Sample.calibration_group in
  components "/Calibration//00/" = ["Calibration"; "00"] /\
  path_valid root g "00" = true /\
  path_valid root g "00/" = true /\
  path_valid root g "./00/K" = true /\
  path_valid root g "/Calibration/05" = true /\
  path_valid root g "0" = false /\
  path_valid root g "" = false /\
  path_valid root g "00/K/." = false /\
  open_path root g "00/" = Ok (Sample.camera_calibration 100) /\
  open_path root g "00/K/." = Ok (Dataset [] (Sample.matrix 101)) /\
  open_path root g "0" = Raise (KeyError "0") /\
  open_path root g "" = Raise EmptyName.
Proof. repeat split. Qed.

Lemma bind_ok {A B} (m : result A) (k : A -> result B) (a : A) :
  m = Ok a -> bind m k = k a.
Proof. intros ->. reflexivity. Qed.

Lemma str_in_In (x : string) (l : list string) :
  str_in x l = true <-> In x l.
Proof.
  unfold str_in. rewrite existsb_exists. split.
  - intros [y [Hy Heq]]. apply String.eqb_eq in Heq. now subst.
  - intros H. exists x. split; [assumption | apply String.eqb_refl].
Qed.

Lemma assoc_keys {V} (k : string) (l : list (string * V)) (v : V) :
  assoc k l = Some v -> str_in k (map fst l) = true.
Proof.
  induction l as [|[k' v'] l IH]; simpl; [discriminate|].
  destruct (String.eqb k k') eqn:E; [reflexivity|]. intros H. now apply IH.
Qed.

Lemma keys_assoc {V} (k : string) (l : list (string * V)) :
  str_in k (map fst l) = true -> exists v, assoc k l = Some v.
Proof.
  induction l as [|[k' v'] l IH]; simpl; [discriminate|].
  destruct (String.eqb k k') eqn:E; [eauto | now apply IH].
Qed.

(** A key under which a group stores a node is one of its keys. *)
Lemma getitem_keys (g : node) (k : string) (n : node) :
  getitem g k = Ok n -> exists ks, keys g = Ok ks /\ str_in k ks = true.
Proof.
  destruct g as [a v|a items]; simpl; [discriminate|].
  destruct (plain_name k); [|discriminate].
  destruct (assoc k items) eqn:E; [|discriminate].
  intros _. eexists. split; [reflexivity|]. eapply assoc_keys; eassumption.
Qed.

Lemma keys_getitem (g : node) (k : string) (ks : list string) :
  plain_name k = true ->
  keys g = Ok ks -> str_in k ks = true -> exists n, getitem g k = Ok n.
Proof.
  destruct g as [a v|a items]; simpl; [discriminate|].
  intros -> [= <-] H. destruct (keys_assoc _ _ H) as [n Hn]. rewrite Hn. eauto.
Qed.

Lemma keys_not_getitem (g : node) (k : string) (ks : list string) :
  keys g = Ok ks -> str_in k ks = false -> getitem g k = Raise (KeyError k).
Proof.
  destruct g as [a v|a items]; simpl; [discriminate|].
  intros [= <-] H. destruct (plain_name k); [|reflexivity].
  destruct (assoc k items) eqn:E; [|reflexivity].
  apply assoc_keys in E. congruence.
Qed.

(** *** Names and paths *)

Lemma getitem_plain (g : node) (k : string) (n : node) :
  getitem g k = Ok n -> plain_name k = true.
Proof.
  destruct g as [a v|a items]; simpl; [discriminate|].
  destruct (plain_name k); [reflexivity | discriminate].
Qed.

Lemma split_no_sep (sep : ascii) (s : string) :
  forallb (fun c => negb (Ascii.eqb c sep)) (list_ascii_of_string s) = true ->
  split sep s = [s].
Proof.
  induction s as [|c s IH]; simpl; [reflexivity|].
  intros H. apply andb_prop in H. destruct H as [Hc Hs].
  apply negb_true_iff in Hc. rewrite Hc, (IH Hs). reflexivity.
Qed.

(** A plain name is a path of one component, itself. *)
Lemma plain_components (k : string) :
  plain_name k = true -> components k = [k].
Proof.
  unfold plain_name, components. intros H.
  apply andb_prop in H. destruct H as [H Hs].
  apply andb_prop in H. destruct H as [He _].
  rewrite (split_no_sep _ _ Hs). simpl. now rewrite He.
Qed.

Lemma plain_start (root g : node) (k : string) :
  plain_name k = true -> start_of root g k = g.
Proof.
  unfold plain_name. intros H.
  apply andb_prop in H. destruct H as [_ Hs].
  destruct k as [|c k]; [reflexivity|]. simpl in Hs.
  apply andb_prop in Hs. destruct Hs as [Hc _]. apply negb_true_iff in Hc.
  unfold start_of. destruct c as [[] [] [] [] [] [] [] []]; try reflexivity.
  discriminate.
Qed.

Lemma plain_not_empty (k : string) : plain_name k = true -> String.eqb k "" = false.
Proof.
  unfold plain_name. intros H.
  apply andb_prop in H. destruct H as [H _].
  apply andb_prop in H. destruct H as [He _]. now apply negb_true_iff in He.
Qed.

Lemma plain_not_dot (k : string) : plain_name k = true -> String.eqb k "." = false.
Proof.
  unfold plain_name. intros H.
  apply andb_prop in H. destruct H as [H _].
  apply andb_prop in H. destruct H as [_ Hd]. now apply negb_true_iff in Hd.
Qed.

(** On a plain name, opening by path is following the link of that name. *)
Lemma open_path_plain (root g : node) (k : string) :
  plain_name k = true -> open_path root g k = getitem g k.
Proof.
  intros H. destruct g as [a v|a items]; [reflexivity|].
  unfold open_path, getitem.
  rewrite (plain_not_empty _ H), (plain_start _ _ _ H), (plain_components _ H), H.
  cbn [open_from]. rewrite (plain_not_dot _ H).
  destruct (assoc k items); reflexivity.
Qed.

(** On a plain name, the membership test is membership among the keys. *)
Lemma in_keys_plain (root g : node) (k : string) (ks : list string) :
  plain_name k = true -> keys g = Ok ks -> in_keys root g k = Ok (str_in k ks).
Proof.
  intros H. destruct g as [a v|a items]; simpl; [discriminate|].
  intros [= <-]. unfold path_valid.
  rewrite (plain_not_empty _ H), (plain_start _ _ _ H), (plain_components _ H).
  cbn [valid_from]. rewrite (plain_not_dot _ H).
  destruct (assoc k items) eqn:E.
  - now rewrite (assoc_keys _ _ _ E).
  - destruct (str_in k (map fst items)) eqn:Hin; [|reflexivity].
    destruct (keys_assoc _ _ Hin) as [v Hv]. congruence.
Qed.

(** The decimal form of an int is a plain name. *)
Lemma string_of_uint_digits (d : uint) :
  forall c, In c (list_ascii_of_string (NilEmpty.string_of_uint d)) -> is_digit c = true.
Proof.
  induction d; simpl; intros c' H; try contradiction;
    (destruct H as [<-|H]; [reflexivity | now apply IHd]).
Qed.

Lemma str_of_int_chars (z : Z) :
  str_of_int z <> "" /\
  forall c, In c (list_ascii_of_string (str_of_int z)) ->
            is_digit c = true \/ c = "-"%char.
Proof.
  assert (Hd : forall d c, In c (list_ascii_of_string (NilZero.string_of_uint d)) ->
                           is_digit c = true).
  { intros d c. destruct d; try apply (string_of_uint_digits (_ d)).
    simpl. intros [<-|[]]. reflexivity. }
  assert (Hne : forall d, NilZero.string_of_uint d <> "").
  { intros d. destruct d; discriminate. }
  unfold str_of_int.
  destruct z as [|p|p]; cbn [Z.to_int NilZero.string_of_int].
  - split; [discriminate|]. intros c [<-|[]]. now left.
  - split; [apply Hne|]. intros c H. left. now apply (Hd (Pos.to_uint p)).
  - split; [discriminate|]. intros c [<-|H]; [now right|].
    left. now apply (Hd (Pos.to_uint p)).
Qed.

Lemma str_of_int_plain (z : Z) : plain_name (str_of_int z) = true.
Proof.
  destruct (str_of_int_chars z) as [Hne Hc].
  unfold plain_name. apply andb_true_iff. split; [apply andb_true_iff; split|].
  - apply negb_true_iff. now apply String.eqb_neq.
  - apply negb_true_iff. apply String.eqb_neq. intros E. rewrite E in Hc.
    destruct (Hc "."%char (or_introl eq_refl)); discriminate.
  - apply forallb_forall. intros c H. apply negb_true_iff.
    destruct (Ascii.eqb_spec c "/") as [->|]; [|reflexivity].
    destruct (Hc _ H); discriminate.
Qed.

(** The ids of the detection cameras are plain names. *)
Lemma detection_camera_plain (k : string) :
  str_in k detection_cameras = true -> plain_name k = true.
Proof.
  intros H. apply str_in_In in H.
  assert (E : forallb plain_name detection_cameras = true) by reflexivity.
  rewrite forallb_forall in E. now apply E.
Qed.

Lemma getitem_no_assertion (g : node) (k msg : string) :
  getitem g k <> Raise (AssertionError msg).
Proof.
  unfold getitem. destruct g as [|a items]; [discriminate|].
  destruct (if plain_name k then assoc k items else None); discriminate.
Qed.

Lemma getitem_open (root g : node) (k : string) (n : node) :
  getitem g k = Ok n -> open_path root g k = Ok n.
Proof.
  intros H. rewrite (open_path_plain _ _ _ (getitem_plain _ _ _ H)). exact H.
Qed.

Lemma getitem_in_keys (root g : node) (k : string) (n : node) :
  getitem g k = Ok n -> in_keys root g k = Ok true.
Proof.
  intros H. destruct (getitem_keys _ _ _ H) as [ks [Hks Hin]].
  rewrite (in_keys_plain _ _ _ _ (getitem_plain _ _ _ H) Hks). now rewrite Hin.
Qed.

(** A path that passes the membership test can be opened. *)
Lemma valid_from_open (name : string) (parts : list string) (cur : node) :
  valid_from cur parts = true -> exists n, open_from name cur parts = Ok n.
Proof.
  revert cur. induction parts as [|p rest IH]; intros cur; cbn [valid_from open_from];
    [eauto|].
  destruct (String.eqb p "."); [apply IH|].
  destruct cur as [a v|a items]; [discriminate|].
  destruct (assoc p items) as [n|]; [|discriminate].
  destruct rest as [|q rest]; [cbn [open_from]; eauto|].
  destruct n as [a' v'|a' items']; [discriminate | apply IH].
Qed.

Lemma in_keys_open (root g : node) (k : string) :
  in_keys root g k = Ok true -> exists n, open_path root g k = Ok n.
Proof.
  destruct g as [a v|a items]; simpl; [discriminate|].
  unfold path_valid. destruct (String.eqb k ""); [discriminate|].
  intros [= H]. now apply valid_from_open.
Qed.

Lemma insert_perm (x : Z) (l : list Z) : Permutation (x :: l) (insert x l).
Proof.
  induction l as [|y l IH]; simpl; [reflexivity|].
  destruct (x <=? y); [reflexivity|].
  rewrite perm_swap. now constructor.
Qed.

Lemma sorted_perm (l : list Z) : Permutation l (sorted l).
Proof.
  induction l as [|x l IH]; simpl; [constructor|].
  rewrite <- insert_perm. now constructor.
Qed.

Lemma insert_sorted (x : Z) (l : list Z) :
  StronglySorted Z.le l -> StronglySorted Z.le (insert x l).
Proof.
  induction 1 as [|y l Hs IH Hall]; simpl.
  - repeat constructor.
  - destruct (x <=? y) eqn:E.
    + apply Z.leb_le in E. constructor; [now constructor|].
      constructor; [assumption|].
      eapply Forall_impl; [|exact Hall]. intros; lia.
    + apply Z.leb_gt in E. constructor; [assumption|].
      eapply Permutation_Forall; [apply insert_perm|].
      constructor; [lia | assumption].
Qed.

Lemma sorted_sorted (l : list Z) : StronglySorted Z.le (sorted l).
Proof.
  induction l as [|x l IH]; simpl; [constructor | now apply insert_sorted].
Qed.

Lemma for_each_length {A B} (f : A -> result B) (l : list A) (ys : list B) :
  for_each f l = Ok ys -> length ys = length l.
Proof.
  revert ys. induction l as [|x l IH]; simpl; intros ys.
  - now intros [= <-].
  - destruct (f x); simpl; [|discriminate].
    destruct (for_each f l); simpl; [|discriminate].
    intros [= <-]. simpl. f_equal. now apply IH.
Qed.

Lemma for_each_ext {A B} (f g : A -> result B) (l : list A) :
  (forall x, f x = g x) -> for_each f l = for_each g l.
Proof.
  intros H. induction l as [|x l IH]; simpl; [reflexivity|].
  now rewrite H, IH.
Qed.

(* ------------------------------------------------------------------ *)
(** ** Stacking *)

Lemma shape_eqb_eq (s t : list nat) : shape_eqb s t = true <-> s = t.
Proof.
  revert t. induction s as [|x s IH]; intros [|y t]; simpl; split;
    try reflexivity; try discriminate.
  - intros H. apply andb_true_iff in H as [H1 H2].
    apply Nat.eqb_eq in H1. apply IH in H2. now subst.
  - intros [= -> ->]. rewrite Nat.eqb_refl. now apply IH.
Qed.

(** The [i]-th block of a concatenation of blocks of one length. *)
Lemma concat_block {A} (k : nat) (ls : list (list A)) :
  Forall (fun l => length l = k) ls ->
  forall i, (i < length ls)%nat ->
  firstn k (skipn (i * k) (concat ls)) = nth i ls [].
Proof.
  induction 1 as [|l ls Hl Hls IH]; intros i Hi; simpl in Hi; [lia|].
  destruct i as [|i]; simpl.
  - rewrite firstn_app, Hl, Nat.sub_diag. simpl.
    rewrite app_nil_r. rewrite <- Hl. apply firstn_all.
  - rewrite skipn_app, Hl.
    rewrite skipn_all2 by lia. simpl.
    replace (k + i * k - k)%nat with (i * k)%nat by lia.
    apply IH. lia.
Qed.

Lemma stack_slices (arrays : list ndarray) (sh : list nat) :
  arrays <> [] ->
  Forall (fun a => shape a = sh /\ well_shaped a) arrays ->
  exists st,
    stack arrays = Ok st /\
    shape st = length arrays :: sh /\
    forall i, (i < length arrays)%nat ->
      slice i st = nth i arrays (mk_ndarray sh []).
Proof.
  intros Hne Hall. destruct arrays as [|a rest]; [congruence|].
  unfold stack.
  assert (Hsh : forallb (fun b => shape_eqb (shape b) (shape a)) rest = true).
  { apply forallb_forall. intros b Hb. apply shape_eqb_eq.
    rewrite Forall_forall in Hall.
    destruct (Hall a (or_introl eq_refl)) as [-> _].
    now destruct (Hall b (or_intror Hb)) as [-> _]. }
  rewrite Hsh. eexists. split; [reflexivity|].
  assert (Ha : shape a = sh) by (inversion Hall as [|? ? [? ?] ?]; assumption).
  split; [simpl; now rewrite Ha|].
  intros i Hi. unfold slice. cbn [shape data tl]. rewrite Ha.
  rewrite (concat_block (size_of sh)).
  - set (d0 := mk_ndarray sh []).
    change (@nil elem) with (data d0). rewrite map_nth.
    assert (Hn : shape (nth i (a :: rest) d0) = sh).
    { rewrite Forall_forall in Hall. apply Hall. now apply nth_In. }
    destruct (nth i (a :: rest) d0) as [s d]. simpl in *. now subst.
  - apply Forall_map. eapply Forall_impl; [|exact Hall].
    intros b [Hb Hw]. unfold well_shaped in Hw. now rewrite Hw, Hb.
  - now rewrite length_map.
Qed.

Lemma for_each_all {A B} (f : A -> result B) (l : list A) :
  (forall x, In x l -> exists y, f x = Ok y) ->
  exists ys, for_each f l = Ok ys /\
    forall i d e, (i < length l)%nat -> f (nth i l d) = Ok (nth i ys e).
Proof.
  induction l as [|x l IH]; intros H; simpl.
  - exists []. split; [reflexivity|]. intros; simpl in *; lia.
  - destruct (H x (or_introl eq_refl)) as [y Hy].
    destruct IH as [ys [Hys Hnth]]; [intros; apply H; now right|].
    exists (y :: ys). rewrite Hy, Hys. split; [reflexivity|].
    intros [|i] d e Hi; simpl; [assumption|]. apply Hnth. simpl in Hi. lia.
Qed.

(** A batch: when every call of the loop returns something that numpy reads as
    a well-shaped array of one shape, the batch returns their stack, and the
    [i]-th slice of the stack is what the [i]-th call returned. *)
Lemma batch_slices {A} (f : A -> result pyobj) (l : list A) (sh : list nat) :
  l <> [] ->
  (forall x, In x l -> exists o,
      f x = Ok o /\ shape (asanyarray o) = sh /\ well_shaped (asanyarray o)) ->
  exists st,
    (rs <- for_each f l ;; np_stack rs) = Ok (PArray st) /\
    shape st = length l :: sh /\
    forall i d, (i < length l)%nat ->
      exists o, f (nth i l d) = Ok o /\ slice i st = asanyarray o.
Proof.
  intros Hne H.
  destruct (for_each_all f l) as [rs [Hrs Hnth]].
  { intros x Hx. destruct (H x Hx) as [o [Ho _]]. eauto. }
  pose proof (for_each_length _ _ _ Hrs) as Hlen.
  destruct (stack_slices (map asanyarray rs) sh) as [st [Hst [Hshape Hslice]]].
  - destruct rs; [destruct l; [congruence | discriminate]|discriminate].
  - apply Forall_map. apply Forall_forall. intros o Ho.
    destruct (In_nth _ _ PNone Ho) as [i [Hi Hio]].
    rewrite Hlen in Hi.
    destruct l as [|x0 l0] eqn:El; [congruence|]. rewrite <- El in *.
    destruct (H (nth i l x0)) as [o' [Ho' Hsh]]; [now apply nth_In|].
    rewrite (Hnth i x0 PNone Hi) in Ho'. injection Ho' as <-.
    now rewrite Hio in Hsh.
  - exists st. rewrite Hrs. unfold np_stack. simpl. rewrite Hst. simpl.
    split; [reflexivity|]. rewrite length_map, Hlen in Hshape.
    split; [assumption|].
    intros i d Hi. exists (nth i rs PNone). split; [now apply Hnth|].
    rewrite Hslice by (now rewrite length_map, Hlen).
    rewrite <- (map_nth asanyarray).
    apply nth_indep. now rewrite length_map, Hlen.
Qed.

(** The same for calls that return arrays: the [i]-th call returns the
    [i]-th slice of the stack. *)
Lemma batch_slices_arrays {A} (f : A -> result pyobj) (l : list A) (sh : list nat) :
  l <> [] ->
  (forall x, In x l -> exists a,
      f x = Ok (PArray a) /\ shape a = sh /\ well_shaped a) ->
  exists st,
    (rs <- for_each f l ;; np_stack rs) = Ok (PArray st) /\
    shape st = length l :: sh /\
    forall i d, (i < length l)%nat -> f (nth i l d) = Ok (PArray (slice i st)).
Proof.
  intros Hne H.
  destruct (batch_slices f l sh Hne) as [st [Hst [Hsh Hsl]]].
  { intros x Hx. destruct (H x Hx) as [a [Ha Hs]]. exists (PArray a). now split. }
  exists st. split; [assumption|]. split; [assumption|].
  intros i d Hi. destruct (Hsl i d Hi) as [o [Ho Hs]].
  destruct (H (nth i l d)) as [a [Ha _]]; [now apply nth_In|].
  rewrite Ha in Ho. injection Ho as <-. simpl in Hs. now rewrite Hs.
Qed.

(* ------------------------------------------------------------------ *)
(** ** Images *)

Section ImageProperties.

Variable imdecode : ndarray -> option bgr_image.

(** The assertions of [get_img] pass on a camera and an image type that the
    container has, for a selector of an accepted type. *)
Lemma get_img_asserts_ok (r : SMCReader) (Camera_id Image_type : string)
    (Frame_id : selector) (cams cam g : node) :
  file_getitem (smc r) "Camera" = Ok cams ->
  getitem cams Camera_id = Ok cam ->
  getitem cam Image_type = Ok g ->
  isinstance_frame Frame_id = true ->
  get_img_asserts r Camera_id Image_type Frame_id = Ok tt.
Proof.
  intros Hcams Hcam Hg Hsel. unfold get_img_asserts.
  rewrite Hcams. cbn [bind].
  rewrite (getitem_in_keys _ _ _ _ Hcam). cbn [bind assert].
  rewrite (getitem_open _ _ _ _ Hcam). cbn [bind].
  rewrite (getitem_in_keys _ _ _ _ Hg). cbn [bind assert].
  now rewrite Hsel.
Qed.

Lemma image_group_ok (r : SMCReader) (Camera_id Image_type : string)
    (cams cam g : node) :
  file_getitem (smc r) "Camera" = Ok cams ->
  getitem cams Camera_id = Ok cam ->
  getitem cam Image_type = Ok g ->
  image_group r Camera_id Image_type = Ok g.
Proof.
  intros Hcams Hcam Hg. unfold image_group.
  rewrite Hcams. cbn [bind]. rewrite (getitem_open _ _ _ _ Hcam). cbn [bind].
  now apply getitem_open.
Qed.

(** The call the loop of a batch makes is the public call on one frame. *)
Lemma get_img_one_eq (r : SMCReader) (Camera_id : index) (Image_type : string)
    (fi : index) :
  get_img imdecode r Camera_id Image_type (FrameIdx fi) =
  get_img_one imdecode r (str Camera_id) Image_type fi.
Proof. reflexivity. Qed.

(** C1.  For a camera [Camera_id] of the container and a frame [Frame_id]
    stored under its ["mask"] group, whose bytes [cv2.imdecode] decodes as the
    colour image [img], [get_img(Camera_id, "mask", Frame_id)] returns a
    two-dimensional array of the height and width of [img], one value per
    pixel: for the pixel of values [b], [g] and [r] it is the largest of the
    three, cast to 8 bits, so it lies in 0..255.  Where the three channels are
    8-bit values, as a decoded image has them, the cast changes nothing: the
    element is one of [b], [g] and [r] and none of them exceeds it. *)
Theorem get_img_mask_is_channel_max (r : SMCReader) (Camera_id Frame_id : index)
    (cams cam g d : node) (img_byte : ndarray) (img : bgr_image) :
  file_getitem (smc r) "Camera" = Ok cams ->
  getitem cams (str Camera_id) = Ok cam ->
  getitem cam "mask" = Ok g ->
  getitem g (str Frame_id) = Ok d ->
  read d = Ok img_byte ->
  imdecode img_byte = Some img ->
  exists m,
    get_img imdecode r Camera_id "mask" (FrameIdx Frame_id) = Ok (PArray m) /\
    shape m = [height img; width img] /\
    data m = map (fun p : Z * Z * Z =>
                    Num (Z.max (Z.max (fst (fst p)) (snd (fst p))) (snd p) mod 256))
                 (pixels img) /\
    Forall (fun e => exists v, e = Num v /\ 0 <= v < 256) (data m) /\
    (forall i b g r,
        nth_error (pixels img) i = Some (b, g, r) ->
        0 <= b < 256 -> 0 <= g < 256 -> 0 <= r < 256 ->
        exists v,
          nth_error (data m) i = Some (Num v) /\
          b <= v /\ g <= v /\ r <= v /\ (v = b \/ v = g \/ v = r)).
Proof.
  intros Hcams Hcam Hg Hd Hread Hdec.
  exists (of_gray (astype_uint8 (max_axis2 img))).
  assert (Hdata : data (of_gray (astype_uint8 (max_axis2 img))) =
                  map (fun p : Z * Z * Z =>
                         Num (Z.max (Z.max (fst (fst p)) (snd (fst p))) (snd p) mod 256))
                      (pixels img)).
  { simpl. rewrite !map_map. apply map_ext. now intros [[b g0] r0]. }
  split; [|split; [reflexivity|split; [exact Hdata|split]]].
  - unfold get_img.
    rewrite (get_img_asserts_ok r _ _ (FrameIdx Frame_id) _ _ _ Hcams Hcam Hg eq_refl).
    cbn [bind]. unfold get_img_frame.
    rewrite (image_group_ok _ _ _ _ _ _ Hcams Hcam Hg). cbn [bind].
    rewrite (getitem_in_keys _ _ _ _ Hd). cbn [bind assert str_in existsb String.eqb Ascii.eqb Bool.eqb orb].
    rewrite (getitem_open _ _ _ _ Hd). cbn [bind]. rewrite Hread. cbn [bind].
    unfold __read_color_from_bytes__. now rewrite Hdec.
  - rewrite Hdata. apply Forall_forall. intros e He.
    apply in_map_iff in He as [p [<- _]].
    eexists. split; [reflexivity|]. apply Z.mod_pos_bound. lia.
  - intros i b g0 r0 Hi Hb Hg0 Hr0. rewrite Hdata.
    exists (Z.max (Z.max b g0) r0). split; [|lia].
    rewrite nth_error_map, Hi. cbn [option_map fst snd].
    now rewrite Z.mod_small by lia.
Qed.

(** C2.  On a camera and an image type of the container whose frame keys read
    as integers: the frame ids [get_img(C, T, None)] goes through are the keys
    in ascending numeric order, as many as there are keys; when the
    single-frame calls on them return arrays of one shape, the call returns a
    stack with one slice per key whose [i]-th slice is [get_img(C, T, f_i)] for
    the [i]-th id of that order.  With an explicit list the same holds in the
    order of the list. *)
Theorem get_img_batch_order (r : SMCReader) (Camera_id : index) (Image_type : string)
    (cams cam g : node) (ks : list string) (ids : list Z) :
  file_getitem (smc r) "Camera" = Ok cams ->
  getitem cams (str Camera_id) = Ok cam ->
  getitem cam Image_type = Ok g ->
  keys g = Ok ks ->
  for_each (fun l => int (PyStr l)) ks = Ok ids ->
  StronglySorted Z.le (sorted ids) /\
  Permutation ids (sorted ids) /\
  length (sorted ids) = length ks /\
  (forall sh,
      ks <> [] ->
      (forall f, In f (sorted ids) -> exists a,
          get_img imdecode r Camera_id Image_type (FrameIdx (PyInt f)) = Ok (PArray a) /\
          shape a = sh /\ well_shaped a) ->
      exists st,
        get_img imdecode r Camera_id Image_type FrameNone = Ok (PArray st) /\
        shape st = length ks :: sh /\
        forall i, (i < length ks)%nat ->
          get_img imdecode r Camera_id Image_type (FrameIdx (PyInt (nth i (sorted ids) 0)))
          = Ok (PArray (slice i st))) /\
  (forall Frame_id_list sh,
      Frame_id_list <> [] ->
      (forall fi, In fi Frame_id_list -> exists a,
          get_img imdecode r Camera_id Image_type (FrameIdx fi) = Ok (PArray a) /\
          shape a = sh /\ well_shaped a) ->
      exists st,
        get_img imdecode r Camera_id Image_type (FrameList Frame_id_list) = Ok (PArray st) /\
        shape st = length Frame_id_list :: sh /\
        forall i, (i < length Frame_id_list)%nat ->
          get_img imdecode r Camera_id Image_type (FrameIdx (nth i Frame_id_list (PyInt 0)))
          = Ok (PArray (slice i st))).
Proof.
  intros Hcams Hcam Hg Hks Hids.
  assert (Hlen : length (sorted ids) = length ks).
  { rewrite <- (Permutation_length (sorted_perm ids)).
    now apply for_each_length in Hids. }
  split; [apply sorted_sorted|]. split; [apply sorted_perm|].
  split; [assumption|]. split.
  - intros sh Hne Hone.
    destruct (batch_slices_arrays
                (fun fi => get_img_one imdecode r (str Camera_id) Image_type (PyInt fi))
                (sorted ids) sh) as [st [Hst [Hsh Hsl]]].
    + intros E. rewrite E in Hlen. destruct ks; [congruence|discriminate].
    + exact Hone.
    + exists st. split; [|split].
      * unfold get_img.
        rewrite (get_img_asserts_ok r _ _ FrameNone _ _ _ Hcams Hcam Hg eq_refl).
        cbn [bind]. rewrite (image_group_ok _ _ _ _ _ _ Hcams Hcam Hg). cbn [bind].
        rewrite Hks. cbn [bind]. rewrite Hids. exact Hst.
      * now rewrite <- Hlen.
      * intros i Hi. rewrite <- Hlen in Hi. exact (Hsl i 0 Hi).
  - intros l sh Hne Hone.
    destruct (batch_slices_arrays
                (get_img_one imdecode r (str Camera_id) Image_type) l sh Hne Hone)
      as [st [Hst [Hsh Hsl]]].
    exists st. split; [|split].
    + unfold get_img.
      rewrite (get_img_asserts_ok r _ _ (FrameList l) _ _ _ Hcams Hcam Hg eq_refl).
      exact Hst.
    + assumption.
    + intros i Hi. exact (Hsl i (PyInt 0) Hi).
Qed.

End ImageProperties.

Lemma get_img_mask_is_channel_max_witness :
  (exists m,
     get_img Sample.raw_decode Sample.reader (PyStr "00") "mask" (FrameIdx (PyInt 1))
       = Ok (PArray m) /\
     shape m = [1%nat; 2%nat] /\
     data m = [Num 3; Num 255]) /\
  (exists m,
     get_img Sample.raw_decode Sample.reader (PyStr "00") "mask" (FrameIdx (PyStr "0"))
       = Ok (PArray m) /\
     shape m = [1%nat; 2%nat] /\
     data m = [Num 200; Num 9]).
Proof.
  split.
  - destruct (get_img_mask_is_channel_max Sample.raw_decode Sample.reader
                (PyStr "00") (PyInt 1) _ _ _ _ _ _
                eq_refl eq_refl eq_refl eq_refl eq_refl eq_refl)
      as [m [Hm [Hsh [Hdata _]]]].
    exists m. split; [exact Hm|]. split; [exact Hsh | exact Hdata].
  - destruct (get_img_mask_is_channel_max Sample.raw_decode Sample.reader
                (PyStr "00") (PyStr "0") _ _ _ _ _ _
                eq_refl eq_refl eq_refl eq_refl eq_refl eq_refl)
      as [m [Hm [Hsh [Hdata _]]]].
    exists m. split; [exact Hm|]. split; [exact Hsh | exact Hdata].
Defined.

Lemma get_img_batch_order_witness :
  sorted [0; 1; 10; 2] = [0; 1; 2; 10] /\
  exists st,
    get_img Sample.raw_decode Sample.reader (PyStr "00") "color" FrameNone
      = Ok (PArray st) /\
    shape st = [4%nat; 1%nat; 2%nat; 3%nat] /\
    forall i, (i < 4)%nat ->
      get_img Sample.raw_decode Sample.reader (PyStr "00") "color"
        (FrameIdx (PyInt (nth i [0; 1; 2; 10] 0)))
      = Ok (PArray (slice i st)).
Proof.
  split; [reflexivity|].
  destruct (get_img_batch_order Sample.raw_decode Sample.reader (PyStr "00") "color"
              _ _ _ _ _ eq_refl eq_refl eq_refl eq_refl eq_refl)
    as (_ & _ & _ & Hnone & _).
  apply (Hnone [1%nat; 2%nat; 3%nat]); [discriminate|].
  intros f Hf. simpl in Hf.
  destruct Hf as [<-|[<-|[<-|[<-|[]]]]]; eexists; repeat split; reflexivity.
Defined.

(* ------------------------------------------------------------------ *)
(** ** Calibration *)

Lemma dict_get_set_same {V} (k : string) (v : V) (d : dict V) :
  dict_get k (dict_set k v d) = Some v.
Proof.
  induction d as [|[k' v'] d IH]; simpl.
  - now rewrite String.eqb_refl.
  - destruct (String.eqb k k') eqn:E; simpl; rewrite E; [reflexivity | exact IH].
Qed.

Lemma dict_get_set_other {V} (k k' : string) (v : V) (d : dict V) :
  k <> k' -> dict_get k' (dict_set k v d) = dict_get k' d.
Proof.
  intros Hne. induction d as [|[k0 v0] d IH]; simpl.
  - destruct (String.eqb_spec k' k); [congruence | reflexivity].
  - destruct (String.eqb_spec k k0); simpl.
    + subst. destruct (String.eqb_spec k' k0); [congruence | reflexivity].
    + destruct (String.eqb k' k0); [reflexivity | exact IH].
Qed.

Lemma dict_set_set {V} (k : string) (v v' : V) (d : dict V) :
  dict_set k v (dict_set k v' d) = dict_set k v d.
Proof.
  induction d as [|[k0 v0] d IH]; simpl.
  - now rewrite String.eqb_refl.
  - destruct (String.eqb k k0) eqn:E; simpl; rewrite E; [reflexivity | now rewrite IH].
Qed.

Lemma dict_set_same {V} (k : string) (v : V) (d : dict V) :
  dict_get k d = Some v -> dict_set k v d = d.
Proof.
  induction d as [|[k0 v0] d IH]; simpl; [discriminate|].
  destruct (String.eqb k k0) eqn:E.
  - now intros [= ->].
  - intros H. now rewrite IH.
Qed.

Lemma dict_get_setdefault_same {V} (k : string) (v : V) (d : dict V) :
  dict_get k (dict_setdefault k v d) =
  Some (match dict_get k d with Some x => x | None => v end).
Proof.
  unfold dict_setdefault. destruct (dict_get k d) eqn:E; [exact E|].
  apply dict_get_set_same.
Qed.

Lemma dict_get_setdefault_other {V} (k k' : string) (v : V) (d : dict V) :
  k <> k' -> dict_get k' (dict_setdefault k v d) = dict_get k' d.
Proof.
  intros Hne. unfold dict_setdefault. destruct (dict_get k d); [reflexivity|].
  now apply dict_get_set_other.
Qed.

(** What [get_Calibration] builds for a camera whose three matrices read. *)
Lemma fill_calibration_ok (r : SMCReader) (ci : string) (cal : calibration) :
  fill_calibration r ci matrix_types [] = Ok cal <->
  exists vD vK vRT,
    read_matrix ci "D" r = Ok vD /\
    read_matrix ci "K" r = Ok vK /\
    read_matrix ci "RT" r = Ok vRT /\
    cal = [("D", vD); ("K", vK); ("RT", vRT)].
Proof.
  simpl. split.
  - destruct (read_matrix ci "D" r) as [vD|]; simpl; [|discriminate].
    destruct (read_matrix ci "K" r) as [vK|]; simpl; [|discriminate].
    destruct (read_matrix ci "RT" r) as [vRT|]; simpl; [|discriminate].
    intros [= <-]. now exists vD, vK, vRT.
  - intros (vD & vK & vRT & -> & -> & -> & ->). reflexivity.
Qed.


(** One round of the loop of [get_Calibration_all], traced exactly: every
    matrix that reads is stored at once, and the first that does not read ends
    the round with what was stored so far. *)
Lemma materialize_camera_run (r : SMCReader) (ci : string) (d : dict calibration) :
  let d1 : dict calibration := dict_setdefault ci [] d in
  let inner : calibration := match dict_get ci d with Some x => x | None => [] end in
  materialize_camera ci (with_calibration_dict (Some d) r) =
  match read_matrix ci "D" r with
  | Raise e => (Raise e, with_calibration_dict (Some d1) r)
  | Ok vD =>
      let iD := dict_set "D" vD inner in
      match read_matrix ci "K" r with
      | Raise e => (Raise e, with_calibration_dict (Some (dict_set ci iD d1)) r)
      | Ok vK =>
          let iK := dict_set "K" vK iD in
          match read_matrix ci "RT" r with
          | Raise e => (Raise e, with_calibration_dict (Some (dict_set ci iK d1)) r)
          | Ok vRT =>
              (Ok tt, with_calibration_dict (Some (dict_set ci (dict_set "RT" vRT iK) d1)) r)
          end
      end
  end.
Proof.
  intros d1 inner.
  assert (Hread : forall mt c, read_matrix ci mt (with_calibration_dict c r)
                               = read_matrix ci mt r) by reflexivity.
  assert (Hwith : forall c c', with_calibration_dict c (with_calibration_dict c' r)
                               = with_calibration_dict c r) by reflexivity.
  assert (Hcd : forall c, __calibration_dict__ (with_calibration_dict c r) = c)
    by reflexivity.
  assert (Hget : @dict_get calibration ci d1 = Some inner)
    by apply dict_get_setdefault_same.
  unfold materialize_camera, matrix_types. cbn [for_].
  unfold bindM, eval, calibration_setdefault, ret. cbv beta.
  rewrite Hcd, Hwith. fold d1. rewrite Hread.
  destruct (read_matrix ci "D" r) as [vD|e]; [|reflexivity].
  unfold calibration_setitem at 1. rewrite Hcd. cbv beta iota.
  rewrite Hget. cbv beta iota. rewrite Hwith, Hread.
  destruct (read_matrix ci "K" r) as [vK|e]; [|reflexivity].
  unfold calibration_setitem at 1. rewrite Hcd. cbv beta iota.
  rewrite dict_get_set_same. cbv beta iota. rewrite Hwith, dict_set_set, Hread.
  destruct (read_matrix ci "RT" r) as [vRT|e]; [|reflexivity].
  unfold calibration_setitem. rewrite Hcd. cbv beta iota.
  rewrite dict_get_set_same. cbv beta iota. now rewrite Hwith, dict_set_set.
Qed.

Lemma run_for_cons {A} (x : A) (l : list A) (body : A -> M unit) (r : SMCReader) :
  for_ (x :: l) body r =
  match body x r with
  | (Ok _, r') => for_ l body r'
  | (Raise e, r') => (Raise e, r')
  end.
Proof. reflexivity. Qed.

(** A round of the loop that ends well leaves a complete entry for its
    camera and keeps the other entries. *)
Lemma materialize_camera_ok (r : SMCReader) (ci : string) (d : dict calibration)
    (r' : SMCReader) :
  complete_cache r d ->
  materialize_camera ci (with_calibration_dict (Some d) r) = (Ok tt, r') ->
  exists d' cal,
    r' = with_calibration_dict (Some d') r /\
    fill_calibration r ci matrix_types [] = Ok cal /\
    dict_get ci d' = Some cal /\
    forall c, c <> ci -> dict_get c d' = dict_get c d.
Proof.
  intros Hd. rewrite materialize_camera_run.
  destruct (read_matrix ci "D" r) as [vD|] eqn:ED; [|discriminate].
  destruct (read_matrix ci "K" r) as [vK|] eqn:EK; [|discriminate].
  destruct (read_matrix ci "RT" r) as [vRT|] eqn:ER; [|discriminate].
  cbv zeta. intros [= <-].
  assert (Hcal : fill_calibration r ci matrix_types [] = Ok [("D", vD); ("K", vK); ("RT", vRT)]).
  { apply fill_calibration_ok. now exists vD, vK, vRT. }
  eexists. exists [("D", vD); ("K", vK); ("RT", vRT)].
  split; [reflexivity|]. split; [exact Hcal|]. split.
  - rewrite dict_get_set_same. f_equal.
    destruct (dict_get ci d) as [x|] eqn:E; [|reflexivity].
    apply Hd in E. rewrite Hcal in E. injection E as <-. reflexivity.
  - intros c Hc. rewrite dict_get_set_other by congruence.
    apply dict_get_setdefault_other. congruence.
Qed.

(** The loop of [get_Calibration_all], when it ends well: every camera it went
    through has an entry, and every entry is complete. *)
Lemma materialize_loop_ok (r : SMCReader) (cis : list string) :
  forall (d : dict calibration) (r' : SMCReader),
    complete_cache r d ->
    for_ cis materialize_camera (with_calibration_dict (Some d) r) = (Ok tt, r') ->
    exists d',
      r' = with_calibration_dict (Some d') r /\
      complete_cache r d' /\
      (forall c, In c cis -> dict_get c d' <> None) /\
      (forall c, dict_get c d <> None -> dict_get c d' <> None).
Proof.
  induction cis as [|ci cis IH]; intros d r' Hd.
  - intros [= <-]. exists d. repeat split; auto.
  - rewrite run_for_cons.
    destruct (materialize_camera ci (with_calibration_dict (Some d) r))
      as [[[]|e] r1] eqn:E; [|discriminate].
    destruct (materialize_camera_ok _ _ _ _ Hd E) as (d1 & cal & -> & Hcal & Hget & Hother).
    intros Hloop.
    assert (Hd1 : complete_cache r d1).
    { intros c x Hc. destruct (String.eqb_spec c ci) as [->|Hne].
      - rewrite Hget in Hc. now injection Hc as <-.
      - rewrite Hother in Hc by assumption. now apply Hd. }
    destruct (IH d1 r' Hd1 Hloop) as (d' & -> & Hd' & Hin & Hkeep).
    exists d'. split; [reflexivity|]. split; [assumption|]. split.
    + intros c [<-|Hc]; [|now apply Hin]. apply Hkeep. now rewrite Hget.
    + intros c Hc. apply Hkeep. destruct (String.eqb_spec c ci) as [->|Hne].
      * now rewrite Hget.
      * now rewrite Hother.
Qed.

(** The loop ends well as soon as every camera has its three matrices. *)
Lemma materialize_loop_total (r : SMCReader) (cis : list string) :
  (forall c, In c cis -> exists cal, fill_calibration r c matrix_types [] = Ok cal) ->
  forall d, exists d',
    for_ cis materialize_camera (with_calibration_dict (Some d) r)
    = (Ok tt, with_calibration_dict (Some d') r).
Proof.
  induction cis as [|ci cis IH]; intros H d.
  - now exists d.
  - destruct (H ci (or_introl eq_refl)) as [cal Hcal].
    apply fill_calibration_ok in Hcal as (vD & vK & vRT & HD & HK & HR & _).
    rewrite run_for_cons, materialize_camera_run, HD, HK, HR. cbv zeta.
    apply IH. intros c Hc. apply H. now right.
Qed.

(** The first call of [get_Calibration_all] on a reader, when it returns. *)
Lemma get_Calibration_all_first (r : SMCReader) (m : option (dict calibration))
    (r1 : SMCReader) :
  __calibration_dict__ r = None ->
  get_Calibration_all r = (Ok m, r1) ->
  exists g ks d,
    file_getitem (smc r) "Calibration" = Ok g /\
    keys g = Ok ks /\
    m = Some d /\
    r1 = with_calibration_dict (Some d) r /\
    complete_cache r d /\
    forall c, In c ks -> dict_get c d <> None.
Proof.
  intros Hnone. unfold get_Calibration_all. rewrite Hnone.
  unfold bindM at 1. unfold set_calibration_dict at 1.
  unfold bindM at 1. unfold eval at 1.
  change (smc (with_calibration_dict (Some []) r)) with (smc r).
  destruct (file_getitem (smc r) "Calibration") as [g|] eqn:Eg; [|discriminate].
  cbn [bind]. destruct (keys g) as [ks|] eqn:Eks; cbn [bind]; [|discriminate].
  unfold bindM at 1.
  match goal with |- context [for_ ks materialize_camera ?s] =>
    destruct (for_ ks materialize_camera s) as [[[]|e] r'] eqn:E
  end; [|discriminate].
  destruct (materialize_loop_ok r ks [] r') as (d & -> & Hd & Hin & _);
    [intros c x; discriminate | exact E |].
  unfold eval. intros [= <- <-].
  exists g, ks, d. repeat split; auto.
Qed.

(** X2.  On an open container whose cameras under Calibration all have their
    three matrices (so that [get_Calibration] returns for each of them), the
    first call of [get_Calibration_all] returns a mapping and stores it in the
    reader. *)
Theorem get_Calibration_all_total (r : SMCReader) (g : node) (ks : list string) :
  __calibration_dict__ r = None ->
  file_getitem (smc r) "Calibration" = Ok g ->
  keys g = Ok ks ->
  (forall c, In c ks -> exists cal, get_Calibration r (PyStr c) = Ok cal) ->
  exists d,
    get_Calibration_all r = (Ok (Some d), with_calibration_dict (Some d) r).
Proof.
  intros Hnone Hg Hks Hall.
  destruct (materialize_loop_total r ks) with (d := @nil (string * calibration))
    as [d Hd].
  { intros c Hc. destruct (Hall c Hc) as [cal Hcal]. exists cal.
    unfold get_Calibration in Hcal. rewrite Hg in Hcal. cbn [bind str] in Hcal.
    destruct (in_keys (root (smc r)) g c) as [[]|];
      [exact Hcal | discriminate | discriminate]. }
  exists d. unfold get_Calibration_all. rewrite Hnone.
  unfold bindM at 1. unfold set_calibration_dict at 1.
  unfold bindM at 1. unfold eval at 1.
  change (smc (with_calibration_dict (Some []) r)) with (smc r).
  rewrite Hg. cbn [bind]. rewrite Hks. unfold bindM at 1.
  match goal with |- context [for_ ks materialize_camera ?s] =>
    assert (Hd' : for_ ks materialize_camera s
                  = (Ok tt, with_calibration_dict (Some d) r)) by exact Hd;
    rewrite Hd'
  end.
  reflexivity.
Qed.

(** C3.  Once [get_Calibration_all] has returned a mapping, calling it again
    returns the same mapping and leaves the reader as it is, whatever the
    container has become in between: the call does not depend on the
    container, and in particular goes through after the file is closed. *)
Theorem get_Calibration_all_cached (r r1 : SMCReader) (m : option (dict calibration)) :
  get_Calibration_all r = (Ok m, r1) ->
  get_Calibration_all r1 = (Ok m, r1) /\
  (forall f, get_Calibration_all (with_smc f r1) = (Ok m, with_smc f r1)) /\
  get_Calibration_all (with_smc (close (smc r1)) r1)
  = (Ok m, with_smc (close (smc r1)) r1).
Proof.
  intros H.
  assert (Hm : exists d, m = Some d /\ __calibration_dict__ r1 = Some d).
  { destruct (__calibration_dict__ r) as [d|] eqn:E.
    - unfold get_Calibration_all in H. rewrite E in H.
      injection H as <- <-. now exists d.
    - destruct (get_Calibration_all_first r m r1 E H)
        as (g & ks & d & _ & _ & -> & -> & _).
      now exists d. }
  destruct Hm as (d & -> & Hd).
  assert (Hany : forall f, get_Calibration_all (with_smc f r1)
                           = (Ok (Some d), with_smc f r1)).
  { intros f. unfold get_Calibration_all.
    change (__calibration_dict__ (with_smc f r1)) with (__calibration_dict__ r1).
    now rewrite Hd. }
  split; [|split; [exact Hany | apply Hany]].
  unfold get_Calibration_all. now rewrite Hd.
Qed.

Lemma get_Calibration_all_cached_witness :
  let m := Sample.calibration_mapping in
  let r1 := with_calibration_dict (Some m) Sample.reader in
  get_Calibration_all Sample.reader = (Ok (Some m), r1) /\
  file_getitem (smc (with_smc (close (smc r1)) r1)) "Calibration" = Raise ClosedFileError /\
  get_Calibration_all (with_smc (close (smc r1)) r1)
  = (Ok (Some m), with_smc (close (smc r1)) r1).
Proof.
  intros m r1.
  assert (H : get_Calibration_all Sample.reader = (Ok (Some m), r1))
    by (vm_compute; reflexivity).
  split; [exact H|]. split; [reflexivity|].
  exact (proj2 (proj2 (get_Calibration_all_cached Sample.reader r1 (Some m) H))).
Defined.

(** C4 (the code departs from it).  On a container whose camera ["01"] lacks
    its matrix K, the first call of [get_Calibration_all] raises, but leaves in
    the reader a mapping that holds camera ["00"] and an entry for ["01"] with
    the matrix D alone; the next call returns that mapping as if it were the
    whole calibration, although the container has no complete record for
    camera ["01"]. *)
Theorem get_Calibration_all_partial_cache :
  let partial : dict calibration :=
    [("00", [("D", Sample.matrix 100); ("K", Sample.matrix 101); ("RT", Sample.matrix 102)]);
     ("01", [("D", Sample.matrix 7)])] in
  let r1 := with_calibration_dict (Some partial) Sample.broken_reader in
  get_Calibration_all Sample.broken_reader = (Raise (KeyError "K"), r1) /\
  get_Calibration_all r1 = (Ok (Some partial), r1) /\
  get_Calibration r1 (PyStr "01") = Raise (KeyError "K") /\
  ~ complete_cache r1 partial.
Proof.
  cbv zeta. repeat split.
  intros H. specialize (H "01" _ eq_refl). discriminate H.
Qed.

Lemma range_In (lo hi n : Z) : lo <= n < hi -> In n (range lo hi).
Proof.
  intros H. unfold range. apply in_map_iff.
  exists (Z.to_nat (n - lo)). split; [lia|].
  apply in_seq. lia.
Qed.

(** A property checked on every integer of a range holds on each of them. *)
Lemma range_forallb (P : Z -> bool) (lo hi : Z) :
  forallb P (range lo hi) = true -> forall n, lo <= n < hi -> P n = true.
Proof.
  intros H n Hn. rewrite forallb_forall in H. apply H. now apply range_In.
Qed.

(** [str] pads nothing: below ten an int has one character, and is not the
    two-digit id; from ten to ninety-nine it is the two-digit id. *)
Lemma str_of_int_digits (n : Z) :
  (0 <= n <= 9 -> String.length (str_of_int n) = 1%nat /\ str_of_int n <> fmt_02d n) /\
  (10 <= n <= 99 -> str_of_int n = fmt_02d n).
Proof.
  split; intros H.
  - assert (E : (Nat.eqb (String.length (str_of_int n)) 1
                 && negb (String.eqb (str_of_int n) (fmt_02d n))) = true).
    { apply (range_forallb
               (fun n => Nat.eqb (String.length (str_of_int n)) 1
                         && negb (String.eqb (str_of_int n) (fmt_02d n))) 0 10);
        [reflexivity | lia]. }
    apply andb_true_iff in E as [E1 E2]. apply Nat.eqb_eq in E1.
    split; [assumption|]. intros Heq. rewrite <- Heq, String.eqb_refl in E2.
    discriminate.
  - apply String.eqb_eq.
    apply (range_forallb (fun n => String.eqb (str_of_int n) (fmt_02d n)) 10 100);
      [reflexivity | lia].
Qed.

Lemma open_from_no_assertion (name msg : string) (parts : list string) (cur : node) :
  open_from name cur parts <> Raise (AssertionError msg).
Proof.
  revert cur. induction parts as [|p rest IH]; intros cur; cbn [open_from]; [discriminate|].
  destruct (String.eqb p "."); [apply IH|].
  destruct cur as [|a items]; [discriminate|].
  destruct (assoc p items); [apply IH | discriminate].
Qed.

Lemma open_path_no_assertion (root g : node) (name msg : string) :
  open_path root g name <> Raise (AssertionError msg).
Proof.
  unfold open_path. destruct g; [discriminate|].
  destruct (String.eqb name ""); [discriminate | apply open_from_no_assertion].
Qed.






(* ------------------------------------------------------------------ *)
(** ** 3D keypoints *)

Lemma for_each_raise {A B} (f : A -> result B) (pre post : list A) (x : A) (e : exn) :
  (forall y, In y pre -> exists o, f y = Ok o) ->
  f x = Raise e ->
  for_each f (pre ++ x :: post) = Raise e.
Proof.
  intros Hpre Hx. induction pre as [|y pre IH]; simpl.
  - now rewrite Hx.
  - destruct (Hpre y (or_introl eq_refl)) as [o ->]. simpl.
    rewrite IH; [reflexivity|]. intros z Hz. apply Hpre. now right.
Qed.

(** C6, as the code has it.  With [num_frame] the frame count declared on
    Keypoints3d: a single index [i] raises the assertion "Invalid frame_index"
    exactly when [i < 0] or [i >= num_frame], and an index in range returns the
    node stored under it; an explicit list calls the single-index path on each
    of its elements, so it raises that assertion at its first element out of
    range; only the omitted selector goes without bounds validation and returns
    the Keypoints3d group. *)
Theorem get_Keypoints3d_bounds (r : SMCReader) (g : node) (n : Z) :
  file_getitem (smc r) "Keypoints3d" = Ok g ->
  getattr g "num_frame" = Ok (AInt n) ->
  (forall fi i,
      int fi = Ok i ->
      (i < 0 \/ n <= i) <->
      get_Keypoints3d r (FrameIdx fi)
      = Raise (AssertionError ("Invalid frame_index " ++ str_of_int i))) /\
  (forall fi i d,
      int fi = Ok i ->
      0 <= i < n -> getitem g (str_of_int i) = Ok d ->
      get_Keypoints3d r (FrameIdx fi) = Ok (PHandle d)) /\
  (forall l,
      get_Keypoints3d r (FrameList l)
      = (rs <- for_each (fun fi => get_Keypoints3d r (FrameIdx fi)) l ;; np_stack rs)) /\
  (forall pre fi i post,
      (forall fj, In fj pre -> exists o, get_Keypoints3d r (FrameIdx fj) = Ok o) ->
      int fi = Ok i ->
      i < 0 \/ n <= i ->
      get_Keypoints3d r (FrameList (pre ++ fi :: post))
      = Raise (AssertionError ("Invalid frame_index " ++ str_of_int i))) /\
  get_Keypoints3d r FrameNone = Ok (PHandle g).
Proof.
  intros Hg Hn.
  assert (Hout : forall fi i, int fi = Ok i -> i < 0 \/ n <= i ->
            get_Keypoints3d_frame r fi
            = Raise (AssertionError ("Invalid frame_index " ++ str_of_int i))).
  { intros fi i Hfi Hi. unfold get_Keypoints3d_frame. rewrite Hfi. cbn [bind].
    destruct (i >=? 0) eqn:E; [|reflexivity].
    rewrite Hg. cbn [bind]. rewrite Hn. cbn [bind int_lt_attr].
    assert ((i <? n) = false) as -> by lia. reflexivity. }
  assert (Hin : forall fi i, int fi = Ok i -> 0 <= i < n ->
            get_Keypoints3d_frame r fi
            = (d <- getitem g (str_of_int i) ;; Ok (PHandle d))).
  { intros fi i Hfi Hi. unfold get_Keypoints3d_frame. rewrite Hfi. cbn [bind].
    assert ((i >=? 0) = true) as -> by lia.
    rewrite Hg. cbn [bind]. rewrite Hn. cbn [bind int_lt_attr].
    assert ((i <? n) = true) as -> by lia. cbn [assert bind].
    now rewrite (open_path_plain _ _ _ (str_of_int_plain i)). }
  split; [|split; [|split; [|split]]].
  - intros fi i Hfi. split; [now apply Hout|].
    intros H. destruct (Z_lt_dec i 0) as [|Hge]; [now left|].
    destruct (Z_le_dec n i) as [|Hlt]; [now right|]. exfalso.
    cbn [get_Keypoints3d] in H. rewrite (Hin fi i Hfi) in H by lia.
    destruct (getitem g (str_of_int i)) eqn:E; cbn [bind] in H; [discriminate|].
    injection H as ->. now apply getitem_no_assertion in E.
  - intros fi i d Hfi Hi Hd. cbn [get_Keypoints3d]. rewrite (Hin fi i Hfi Hi).
    now rewrite Hd.
  - reflexivity.
  - intros pre fi i post Hpre Hfi Hi. cbn [get_Keypoints3d].
    rewrite (for_each_raise (get_Keypoints3d_frame r) pre post fi _ Hpre (Hout fi i Hfi Hi)).
    reflexivity.
  - cbn [get_Keypoints3d]. now rewrite Hg.
Qed.

Lemma get_Keypoints3d_bounds_witness :
  get_Keypoints3d Sample.reader (FrameIdx (PyInt 2))
  = Raise (AssertionError "Invalid frame_index 2") /\
  get_Keypoints3d Sample.reader (FrameIdx (PyStr "1")) = Ok (PHandle (Sample.keypoints 2000)) /\
  get_Keypoints3d Sample.reader (FrameList [PyInt 0; PyInt 2; PyInt 1])
  = Raise (AssertionError "Invalid frame_index 2").
Proof.
  pose proof (get_Keypoints3d_bounds Sample.reader _ 2 eq_refl eq_refl)
    as (Hidx & Hok & _ & Hlist & _).
  split; [apply (proj1 (Hidx (PyInt 2) 2 eq_refl)); right; lia|].
  split; [apply (Hok (PyStr "1") 1); [reflexivity | lia | reflexivity]|].
  apply (Hlist [PyInt 0] (PyInt 2) 2 [PyInt 1]); [|reflexivity|right; lia].
  intros fi [<-|[]]. eexists. reflexivity.
Defined.

(** C6, as the spec has it, fails: the explicit list does validate bounds.
    The container stores a frame under ["2"] while it declares two frames; the
    list [[2]] is refused by the bounds assertion all the same. *)
Lemma get_Keypoints3d_list_validates :
  (exists g d, file_getitem (smc Sample.reader) "Keypoints3d" = Ok g /\
               getattr g "num_frame" = Ok (AInt 2) /\
               getitem g "2" = Ok d) /\
  get_Keypoints3d Sample.reader (FrameList [PyInt 2])
  = Raise (AssertionError "Invalid frame_index 2").
Proof.
  split; [|reflexivity].
  eexists. eexists. repeat split.
Qed.

(* ------------------------------------------------------------------ *)
(** ** 2D keypoints *)

Lemma detection_cameras_eq :
  detection_cameras =
  ["18"; "19"; "20"; "21"; "22"; "23"; "24"; "25"; "26"; "27"; "28"; "29";
   "30"; "31"; "32"].
Proof. reflexivity. Qed.

(** The checks of [get_Keypoints2d] on a detection camera that has a subtree. *)
Lemma get_Keypoints2d_checks_present (r : SMCReader) (Camera_id : string)
    (Frame_id : selector) (g cam : node) :
  str_in Camera_id detection_cameras = true ->
  isinstance_frame Frame_id = true ->
  file_getitem (smc r) "Keypoints2d" = Ok g ->
  getitem g Camera_id = Ok cam ->
  get_Keypoints2d_checks r Camera_id Frame_id = Ok true.
Proof.
  intros Hdet Hsel Hg Hcam. unfold get_Keypoints2d_checks.
  rewrite Hdet, Hsel. cbn [assert bind]. rewrite Hg. cbn [bind].
  now apply getitem_in_keys with (n := cam).
Qed.

(** X20.  For a detection camera that has a subtree under Keypoints2d: a
    single index returns the node that the frame id, as a str, names under that
    subtree; an explicit list calls the single-index path on each element, in
    the order of the list, and returns the results stacked along a new leading
    axis, the [i]-th slice being the array stored for the [i]-th element. *)
Theorem get_Keypoints2d_modes (r : SMCReader) (Camera_id : index) (g cam : node) :
  str_in (str Camera_id) detection_cameras = true ->
  file_getitem (smc r) "Keypoints2d" = Ok g ->
  getitem g (str Camera_id) = Ok cam ->
  (forall fi,
      get_Keypoints2d r Camera_id (FrameIdx fi)
      = (d <- open_path (root (smc r)) cam (str fi) ;; Ok (PHandle d))) /\
  (forall fi d,
      getitem cam (str fi) = Ok d ->
      get_Keypoints2d r Camera_id (FrameIdx fi) = Ok (PHandle d)) /\
  (forall l,
      get_Keypoints2d r Camera_id (FrameList l)
      = (rs <- for_each (fun fi => get_Keypoints2d r Camera_id (FrameIdx fi)) l ;;
         np_stack rs)) /\
  (forall l sh,
      l <> [] ->
      (forall fi, In fi l -> exists a v,
          getitem cam (str fi) = Ok (Dataset a v) /\ shape v = sh /\ well_shaped v) ->
      exists st,
        get_Keypoints2d r Camera_id (FrameList l) = Ok (PArray st) /\
        shape st = length l :: sh /\
        forall i, (i < length l)%nat ->
          exists a, getitem cam (str (nth i l (PyInt 0))) = Ok (Dataset a (slice i st))).
Proof.
  intros Hdet Hg Hcam.
  assert (Hone : forall fi,
            get_Keypoints2d_one r (str Camera_id) fi
            = (d <- open_path (root (smc r)) cam (str fi) ;; Ok (PHandle d))).
  { intros fi. unfold get_Keypoints2d_one.
    rewrite (get_Keypoints2d_checks_present r _ (FrameIdx fi) g cam Hdet eq_refl Hg Hcam).
    cbn [bind negb]. unfold get_Keypoints2d_frame. rewrite Hg. cbn [bind].
    now rewrite (getitem_open _ _ _ _ Hcam). }
  assert (Hstored : forall fi d, getitem cam (str fi) = Ok d ->
            get_Keypoints2d_one r (str Camera_id) fi = Ok (PHandle d)).
  { intros fi d Hd. now rewrite Hone, (getitem_open _ _ _ _ Hd). }
  assert (Hlist : forall l,
            get_Keypoints2d r Camera_id (FrameList l)
            = (rs <- for_each (get_Keypoints2d_one r (str Camera_id)) l ;; np_stack rs)).
  { intros l. unfold get_Keypoints2d.
    now rewrite (get_Keypoints2d_checks_present r _ (FrameList l) g cam Hdet eq_refl Hg Hcam). }
  split; [|split; [|split]].
  - intros fi. exact (Hone fi).
  - intros fi d Hd. exact (Hstored fi d Hd).
  - intros l. rewrite Hlist. reflexivity.
  - intros l sh Hne Hall. rewrite Hlist.
    destruct (batch_slices (get_Keypoints2d_one r (str Camera_id)) l sh Hne)
      as [st [Hst [Hsh Hsl]]].
    { intros fi Hfi. destruct (Hall fi Hfi) as (a & v & Hd & Hs & Hw).
      exists (PHandle (Dataset a v)). rewrite (Hstored _ _ Hd). now split. }
    exists st. split; [assumption|]. split; [assumption|].
    intros i Hi. destruct (Hsl i (PyInt 0) Hi) as [o [Ho Hs]].
    destruct (Hall (nth i l (PyInt 0))) as (a & v & Hd & _); [now apply nth_In|].
    rewrite (Hstored _ _ Hd) in Ho. injection Ho as <-. exists a. simpl in Hs.
    now rewrite Hs.
Qed.

Lemma get_Keypoints2d_modes_witness :
  get_Keypoints2d Sample.reader (PyInt 18) (FrameIdx (PyStr "10"))
  = Ok (PHandle (Sample.keypoints 100)) /\
  get_Keypoints2d Sample.reader (PyInt 18) (FrameIdx (PyStr "./10"))
  = Ok (PHandle (Sample.keypoints 100)) /\
  exists st,
    get_Keypoints2d Sample.reader (PyInt 18) (FrameList [PyInt 2; PyInt 0])
    = Ok (PArray st) /\
    shape st = [2%nat; 2%nat] /\
    data st = [Num 20; Num 21; Num 0; Num 1].
Proof.
  pose proof (get_Keypoints2d_modes Sample.reader (PyInt 18) _ _ eq_refl eq_refl eq_refl)
    as (Hidx & Hstored & Hlist & _).
  split; [exact (Hstored (PyStr "10") _ eq_refl)|]. split.
  - rewrite (Hidx (PyStr "./10")). reflexivity.
  - eexists. split; [rewrite Hlist; reflexivity|]. split; reflexivity.
Defined.

(** C7 (the code departs from it).  With the selector omitted
    [get_Keypoints2d], on a detection camera that has a subtree, returns no
    stack of the frames in ascending numeric order: it returns the handle of
    the camera's subtree, whose frames are neither read nor ordered (its keys
    come as the container has them, ["10"] before ["2"]).  The explicit list
    of the same frames does return the stack, and so does the image accessor
    with the selector omitted. *)
Lemma get_Keypoints2d_omitted_not_stacked :
  (exists cam,
     get_Keypoints2d Sample.reader (PyStr "18") FrameNone = Ok (PHandle cam) /\
     keys cam = Ok ["0"; "1"; "10"; "2"]) /\
  (forall st, get_Keypoints2d Sample.reader (PyStr "18") FrameNone <> Ok (PArray st)) /\
  get_Keypoints2d Sample.reader (PyStr "18") (FrameList [PyInt 0; PyInt 1; PyInt 2; PyInt 10])
  = Ok (PArray (mk_ndarray [4%nat; 2%nat]
                  [Num 0; Num 1; Num 10; Num 11; Num 20; Num 21; Num 100; Num 101])) /\
  get_Keypoints2d Sample.reader (PyStr "18") FrameNone
  <> get_Keypoints2d Sample.reader (PyStr "18") (FrameList [PyInt 0; PyInt 1; PyInt 2; PyInt 10]) /\
  exists st,
    get_img Sample.raw_decode Sample.reader (PyStr "00") "color" FrameNone = Ok (PArray st) /\
    shape st = [4%nat; 1%nat; 2%nat; 3%nat].
Proof.
  split; [eexists; split; reflexivity|].
  split; [intros st; discriminate|].
  split; [reflexivity|].
  split; [discriminate|].
  eexists. split; reflexivity.
Qed.

(** C8.  The detection cameras are the ids ["18"] to ["32"].  For a camera id
    outside of them, [get_Keypoints2d] raises the assertion "Invalid
    Camera_id", whatever the selector and whatever the container.  For a
    detection camera that has no subtree under Keypoints2d, it returns [None],
    for every selector of an accepted type. *)
Theorem get_Keypoints2d_camera (r : SMCReader) (Camera_id : index) (Frame_id : selector) :
  detection_cameras =
    ["18"; "19"; "20"; "21"; "22"; "23"; "24"; "25"; "26"; "27"; "28"; "29";
     "30"; "31"; "32"] /\
  (~ In (str Camera_id) detection_cameras ->
   get_Keypoints2d r Camera_id Frame_id
   = Raise (AssertionError ("Invalid Camera_id " ++ str Camera_id))) /\
  (forall g ks,
      In (str Camera_id) detection_cameras ->
      isinstance_frame Frame_id = true ->
      file_getitem (smc r) "Keypoints2d" = Ok g ->
      keys g = Ok ks ->
      ~ In (str Camera_id) ks ->
      get_Keypoints2d r Camera_id Frame_id = Ok PNone).
Proof.
  split; [reflexivity|]. split.
  - intros Hout. unfold get_Keypoints2d, get_Keypoints2d_checks.
    destruct (str_in (str Camera_id) detection_cameras) eqn:E; [|reflexivity].
    apply str_in_In in E. contradiction.
  - intros g ks Hdet Hsel Hg Hks Habsent.
    unfold get_Keypoints2d, get_Keypoints2d_checks.
    apply str_in_In in Hdet. rewrite Hdet, Hsel. cbn [assert bind].
    rewrite Hg. cbn [bind].
    rewrite (in_keys_plain _ _ _ _ (detection_camera_plain _ Hdet) Hks). cbn [bind].
    destruct (str_in (str Camera_id) ks) eqn:E; [|reflexivity].
    apply str_in_In in E. contradiction.
Qed.

Lemma get_Keypoints2d_camera_witness :
  get_Keypoints2d Sample.reader (PyInt 5) FrameNone
  = Raise (AssertionError "Invalid Camera_id 5") /\
  get_Keypoints2d Sample.reader (PyStr "33") (FrameOther "float")
  = Raise (AssertionError "Invalid Camera_id 33") /\
  get_Keypoints2d Sample.reader (PyInt 20) FrameNone = Ok PNone.
Proof.
  assert (Hnot : forall s, str_in s detection_cameras = false ->
                           ~ In s detection_cameras).
  { intros s Hs Hin. apply str_in_In in Hin. congruence. }
  split; [|split].
  - apply (proj1 (proj2 (get_Keypoints2d_camera Sample.reader (PyInt 5) FrameNone))).
    apply Hnot. reflexivity.
  - apply (proj1 (proj2 (get_Keypoints2d_camera Sample.reader (PyStr "33")
                           (FrameOther "float")))).
    apply Hnot. reflexivity.
  - eapply (proj2 (proj2 (get_Keypoints2d_camera Sample.reader (PyInt 20) FrameNone))).
    + apply str_in_In. reflexivity.
    + reflexivity.
    + reflexivity.
    + reflexivity.
    + intros [H|[]]. discriminate H.
Defined.

(* ------------------------------------------------------------------ *)
(** ** Audio *)

Lemma prefix_app (sub s : string) :
  prefix sub s = true <-> exists b, s = sub ++ b.
Proof.
  revert s. induction sub as [|c sub IH]; intros s; simpl.
  - split; [intros _; now exists s | intros _; now destruct s].
  - destruct s as [|c' s]; simpl.
    + split; [discriminate | intros [b Hb]; discriminate].
    + destruct (ascii_dec c c') as [->|Hne].
      * rewrite IH. split; intros [b Hb]; exists b; congruence.
      * split; [discriminate | intros [b Hb]; congruence].
Qed.

(** [contains] is the substring test. *)
Lemma contains_substring (sub s : string) :
  contains sub s = true <-> exists a b, s = a ++ sub ++ b.
Proof.
  induction s as [|c s IH]; cbn [contains].
  - rewrite orb_false_r, prefix_app. split.
    + intros [b Hb]. now exists "", b.
    + intros (a & b & H). destruct a; [now exists b|discriminate].
  - rewrite orb_true_iff, prefix_app, IH. split.
    + intros [[b Hb]|(a & b & Hab)].
      * now exists "", b.
      * exists (String c a), b. simpl. now rewrite Hab.
    + intros (a & b & H). destruct a as [|c' a]; simpl in H.
      * left. now exists b.
      * right. exists a, b. congruence.
Qed.

Lemma no_underscore (c : ascii) (s : string) :
  contains "_" (String c s) = false ->
  Ascii.eqb c "_" = false /\ contains "_" s = false.
Proof.
  cbn [contains]. intros H. apply orb_false_iff in H as [Hp Hc].
  split; [|assumption].
  destruct (Ascii.eqb_spec c "_") as [->|]; [|reflexivity].
  exfalso. assert (prefix "_" (String "_" s) = true); [|congruence].
  apply prefix_app. now exists s.
Qed.

(** [split('_')[0]] is the part before the first underscore. *)
Lemma split_head_token (tok rest : string) :
  contains "_" tok = false ->
  split_head "_" tok = tok /\ split_head "_" (tok ++ String "_" rest) = tok.
Proof.
  induction tok as [|c tok IH]; intros H.
  - split; reflexivity.
  - apply no_underscore in H as [Hc Ht]. destruct (IH Ht) as [IH1 IH2].
    cbn [split_head append]. rewrite Hc. now rewrite IH1, IH2.
Qed.

(** A one-character str is in a str when the character occurs in it. *)
Lemma contains_char (c : ascii) (s : string) :
  contains (String c "") s = true <-> In c (list_ascii_of_string s).
Proof.
  induction s as [|a s IH]; cbn [contains list_ascii_of_string In].
  - split; [discriminate | contradiction].
  - rewrite orb_true_iff, IH. cbn [prefix].
    destruct (ascii_dec c a) as [->|Hne].
    + split; [intros _; now left | intros _; left; now destruct s].
    + split; [intros [H|H]; [discriminate | now right]|].
      intros [H|H]; [congruence | now right].
Qed.

(** C9.  The performance part is a first token, which has no underscore, alone
    or followed by an underscore and anything.  When the character [s] does not
    occur in that first token, [get_audio] returns [None] whatever follows the
    underscore and whatever the container is, be it closed: the container is
    not looked at.  When it occurs there, the call returns the node stored at
    Camera/00/audio as it is. *)
Theorem get_audio_convention (r : SMCReader) (tok rest : string) :
  ~ In "_"%char (list_ascii_of_string tok) ->
  performance_part r = AStr tok \/
  performance_part r = AStr (tok ++ String "_" rest) ->
  (~ In "s"%char (list_ascii_of_string tok) ->
   forall f, get_audio (with_smc f r) = Ok PNone) /\
  (In "s"%char (list_ascii_of_string tok) ->
   forall cams cam data,
     file_getitem (smc r) "Camera" = Ok cams ->
     getitem cams "00" = Ok cam ->
     getitem cam "audio" = Ok data ->
     get_audio r = Ok (PHandle data)).
Proof.
  intros Htok Hpart.
  assert (Hu : contains "_" tok = false).
  { destruct (contains "_" tok) eqn:E; [|reflexivity].
    apply contains_char in E. contradiction. }
  destruct (split_head_token tok rest Hu) as [H1 H2].
  assert (Hhead : exists part, performance_part r = AStr part /\ split_head "_" part = tok).
  { destruct Hpart as [H|H]; eexists; (split; [exact H|]); assumption. }
  destruct Hhead as (part & Hp & Hh).
  split.
  - intros Hs f. unfold get_audio.
    change (performance_part (with_smc f r)) with (performance_part r).
    rewrite Hp, Hh.
    destruct (contains "s" tok) eqn:E; [|reflexivity].
    apply contains_char in E. contradiction.
  - intros Hs cams cam data Hcams Hcam Hdata. unfold get_audio.
    rewrite Hp, Hh. apply contains_char in Hs. rewrite Hs. cbn [negb].
    rewrite Hcams. cbn [bind]. rewrite Hcam. cbn [bind]. now rewrite Hdata.
Qed.

Lemma get_audio_convention_witness :
  (forall f, get_audio (with_smc f (Sample.reader_of (mk_file Sample.root true) "e0_s1"))
             = Ok PNone) /\
  get_audio (with_smc (close (smc Sample.silent_reader)) Sample.silent_reader) = Ok PNone /\
  get_audio Sample.reader = Ok (PHandle Sample.audio).
Proof.
  assert (Hno : forall c a b : ascii, a <> c -> b <> c ->
                  ~ In c (list_ascii_of_string (String a (String b "")))).
  { intros c a b Ha Hb [H|[H|[]]]; contradiction. }
  assert (He0u : ~ In "_"%char (list_ascii_of_string "e0")) by (apply Hno; discriminate).
  assert (He0s : ~ In "s"%char (list_ascii_of_string "e0")) by (apply Hno; discriminate).
  assert (Hs1u : ~ In "_"%char (list_ascii_of_string "s1")) by (apply Hno; discriminate).
  assert (Hs1s : In "s"%char (list_ascii_of_string "s1")) by (left; reflexivity).
  split; [|split].
  - exact (proj1 (get_audio_convention
                    (Sample.reader_of (mk_file Sample.root true) "e0_s1") "e0" "s1"
                    He0u (or_intror eq_refl)) He0s).
  - exact (proj1 (get_audio_convention Sample.silent_reader "e0" "all"
                    He0u (or_intror eq_refl)) He0s _).
  - exact (proj2 (get_audio_convention Sample.reader "s1" "all"
                    Hs1u (or_intror eq_refl))
             Hs1s _ _ _ eq_refl eq_refl eq_refl).
Defined.

(* ------------------------------------------------------------------ *)
(** ** Empty batches *)

Section EmptyBatch.

Variable imdecode : ndarray -> option bgr_image.

(** C10.  The empty list as frame selector gives no empty batch: on a camera
    and an image type of the container, [get_img] raises the error of
    [np.stack] on an empty sequence; so does [get_Keypoints2d] on a detection
    camera that has a subtree, and so does [get_Keypoints3d] on any reader. *)
Theorem empty_list_raises (r : SMCReader) :
  (forall Camera_id Image_type cams cam g,
      file_getitem (smc r) "Camera" = Ok cams ->
      getitem cams (str Camera_id) = Ok cam ->
      getitem cam Image_type = Ok g ->
      get_img imdecode r Camera_id Image_type (FrameList [])
      = Raise (ValueError "need at least one array to stack")) /\
  (forall Camera_id g cam,
      str_in (str Camera_id) detection_cameras = true ->
      file_getitem (smc r) "Keypoints2d" = Ok g ->
      getitem g (str Camera_id) = Ok cam ->
      get_Keypoints2d r Camera_id (FrameList [])
      = Raise (ValueError "need at least one array to stack")) /\
  get_Keypoints3d r (FrameList [])
  = Raise (ValueError "need at least one array to stack").
Proof.
  split; [|split].
  - intros Camera_id Image_type cams cam g Hcams Hcam Hg. unfold get_img.
    now rewrite (get_img_asserts_ok r _ _ (FrameList []) _ _ _ Hcams Hcam Hg eq_refl).
  - intros Camera_id g cam Hdet Hg Hcam. unfold get_Keypoints2d.
    now rewrite (get_Keypoints2d_checks_present r _ (FrameList []) g cam Hdet eq_refl Hg Hcam).
  - reflexivity.
Qed.

End EmptyBatch.

Lemma empty_list_raises_witness :
  get_img Sample.raw_decode Sample.reader (PyStr "00") "color" (FrameList [])
  = Raise (ValueError "need at least one array to stack") /\
  get_Keypoints2d Sample.reader (PyInt 18) (FrameList [])
  = Raise (ValueError "need at least one array to stack") /\
  get_Keypoints3d Sample.reader (FrameList [])
  = Raise (ValueError "need at least one array to stack").
Proof.
  pose proof (empty_list_raises Sample.raw_decode Sample.reader) as (Himg & Hk2 & Hk3).
  split; [|split].
  - exact (Himg (PyStr "00") "color" _ _ _ eq_refl eq_refl eq_refl).
  - exact (Hk2 (PyInt 18) _ _ eq_refl eq_refl eq_refl).
  - exact Hk3.
Defined.

(* ------------------------------------------------------------------ *)
(** ** Frame keys: [int] undoes [str] *)

Lemma digit_not_space (c : ascii) : is_digit c = true -> is_space c = false.
Proof.
  unfold is_digit, is_space. intros H.
  apply andb_true_iff in H as [H1 H2].
  apply Nat.leb_le in H1. apply Nat.leb_le in H2.
  assert ((9 <=? nat_of_ascii c)%nat && (nat_of_ascii c <=? 13)%nat = false) as ->
    by (apply andb_false_iff; right; apply Nat.leb_gt; lia).
  assert ((nat_of_ascii c =? 32)%nat = false) as -> by (apply Nat.eqb_neq; lia).
  assert ((nat_of_ascii c =? 133)%nat = false) as -> by (apply Nat.eqb_neq; lia).
  assert ((nat_of_ascii c =? 160)%nat = false) as -> by (apply Nat.eqb_neq; lia).
  reflexivity.
Qed.

Lemma lstrip_digits (s : string) :
  (forall c, In c (list_ascii_of_string s) -> is_space c = false) -> lstrip s = s.
Proof.
  destruct s as [|c s]; simpl; [reflexivity|]. intros H.
  now rewrite (H c (or_introl eq_refl)).
Qed.

Lemma rstrip_digits (s : string) :
  (forall c, In c (list_ascii_of_string s) -> is_space c = false) -> rstrip s = s.
Proof.
  induction s as [|c s IH]; simpl; [reflexivity|]. intros H.
  rewrite IH by (intros c' Hc'; apply H; now right).
  destruct s; [|reflexivity]. now rewrite (H c (or_introl eq_refl)).
Qed.

Lemma literal_digits_all (s : string) (prev : bool) :
  (forall c, In c (list_ascii_of_string s) -> is_digit c = true) ->
  prev = true \/ s <> EmptyString ->
  literal_digits prev s = Some s.
Proof.
  revert prev. induction s as [|c s IH]; intros prev H Hne; simpl.
  - destruct Hne as [->|Hne]; [reflexivity | congruence].
  - rewrite (H c (or_introl eq_refl)).
    rewrite (IH true); [reflexivity | | now left].
    intros c' Hc'. apply H. now right.
Qed.

(** The decimal form of a natural number reads back as that number. *)
Lemma nat_literal_of_uint (d : uint) :
  d <> Nil ->
  exists c r,
    NilZero.string_of_uint d = String c r /\
    is_digit c = true /\
    (forall c', In c' (list_ascii_of_string (String c r)) -> is_space c' = false) /\
    nat_literal (String c r) = Some (Z.of_uint d).
Proof.
  intros Hd.
  assert (Hs : NilZero.string_of_uint d = NilEmpty.string_of_uint d)
    by (destruct d; [congruence | reflexivity ..]).
  pose proof (string_of_uint_digits d) as Hdig.
  pose proof (NilZero.usu d Hd) as Husu. rewrite Hs in *.
  destruct (NilEmpty.string_of_uint d) as [|c r] eqn:E.
  - destruct d; simpl in E; congruence.
  - exists c, r. split; [reflexivity|].
    split; [apply Hdig; now left|].
    split; [intros c' Hc'; apply digit_not_space; now apply Hdig|].
    unfold nat_literal. rewrite literal_digits_all; [|exact Hdig|right; discriminate].
    now rewrite Husu.
Qed.

Lemma int_of_str_digits (c : ascii) (r : string) :
  is_digit c = true ->
  (forall c', In c' (list_ascii_of_string (String c r)) -> is_space c' = false) ->
  int_of_str (String c r) = nat_literal (String c r).
Proof.
  intros Hc Hsp. unfold int_of_str.
  rewrite (lstrip_digits _ Hsp), (rstrip_digits _ Hsp).
  destruct c as [[] [] [] [] [] [] [] []]; try discriminate Hc; reflexivity.
Qed.

(** [int(str(n)) == n] for every int [n]. *)
Lemma int_of_str_of_int (z : Z) : int_of_str (str_of_int z) = Some z.
Proof.
  unfold str_of_int. destruct z as [|p|p]; [reflexivity| |]; cbn [Z.to_int NilZero.string_of_int].
  - destruct (nat_literal_of_uint (Pos.to_uint p) (DecimalPos.Unsigned.to_uint_nonnil p))
      as (c & r & -> & Hc & Hsp & Hlit).
    rewrite (int_of_str_digits c r Hc Hsp), Hlit.
    unfold Z.of_uint. now rewrite DecimalPos.Unsigned.of_to.
  - destruct (nat_literal_of_uint (Pos.to_uint p) (DecimalPos.Unsigned.to_uint_nonnil p))
      as (c & r & -> & Hc & Hsp & Hlit).
    unfold int_of_str.
    assert (Hsp' : forall c', In c' (list_ascii_of_string (String "-" (String c r))) ->
                              is_space c' = false).
    { intros c' [<-|H]; [reflexivity | now apply Hsp]. }
    rewrite (lstrip_digits _ Hsp'), (rstrip_digits _ Hsp'), Hlit.
    unfold Z.of_uint. now rewrite DecimalPos.Unsigned.of_to.
Qed.

(* ------------------------------------------------------------------ *)
(** ** Batches of images, from what the container holds *)

Lemma for_each_int_keys (ks : list string) :
  (forall k, In k ks -> exists n, k = str_of_int n) ->
  exists ids,
    for_each (fun l => int (PyStr l)) ks = Ok ids /\
    forall f, In f ids -> In (str_of_int f) ks.
Proof.
  induction ks as [|k ks IH]; intros H.
  - exists []. split; [reflexivity | intros f []].
  - destruct (H k (or_introl eq_refl)) as [n ->].
    destruct IH as [ids [Hids Hin]]; [intros k' Hk'; apply H; now right|].
    exists (n :: ids). cbn [for_each]. rewrite Hids.
    cbn [int]. rewrite int_of_str_of_int. split; [reflexivity|].
    intros f [<-|Hf]; [now left | right; now apply Hin].
Qed.

Lemma of_bgr_well_shaped (img : bgr_image) :
  length (pixels img) = (height img * width img)%nat -> well_shaped (of_bgr img).
Proof.
  intros H. unfold well_shaped, of_bgr. cbn [data shape size_of fold_right].
  rewrite (flat_map_constant_length (c := 3%nat)); [lia|].
  intros [[b g] r0] _. reflexivity.
Qed.

Lemma of_gray_well_shaped (img : bgr_image) :
  length (pixels img) = (height img * width img)%nat ->
  well_shaped (of_gray (astype_uint8 (max_axis2 img))).
Proof.
  intros H. unfold well_shaped. cbn. rewrite !length_map. lia.
Qed.

Section ImageBatches.

Variable imdecode : ndarray -> option bgr_image.

(** What [get_img] returns for one stored frame that decodes. *)
Lemma get_img_frame_ok (r : SMCReader) (Camera_id Frame_id : index)
    (Image_type : string) (cams cam g d : node) (img_byte : ndarray) (img : bgr_image) :
  Image_type = "color" \/ Image_type = "mask" ->
  file_getitem (smc r) "Camera" = Ok cams ->
  getitem cams (str Camera_id) = Ok cam ->
  getitem cam Image_type = Ok g ->
  getitem g (str Frame_id) = Ok d ->
  read d = Ok img_byte ->
  imdecode img_byte = Some img ->
  get_img imdecode r Camera_id Image_type (FrameIdx Frame_id)
  = Ok (PArray (if String.eqb Image_type "mask"
                then of_gray (astype_uint8 (max_axis2 img))
                else of_bgr img)).
Proof.
  intros HT Hcams Hcam Hg Hd Hread Hdec. unfold get_img.
  rewrite (get_img_asserts_ok r _ _ (FrameIdx Frame_id) _ _ _ Hcams Hcam Hg eq_refl).
  cbn [bind]. unfold get_img_frame.
  rewrite (image_group_ok _ _ _ _ _ _ Hcams Hcam Hg). cbn [bind].
  rewrite (getitem_in_keys _ _ _ _ Hd). cbn [assert bind].
  destruct HT as [-> | ->]; cbn [str_in existsb String.eqb Ascii.eqb Bool.eqb orb andb];
    rewrite (getitem_open _ _ _ _ Hd); cbn [bind]; rewrite Hread; cbn [bind];
    unfold __read_color_from_bytes__; rewrite Hdec; reflexivity.
Qed.

(** The omitted selector, once the assertions have passed and the keys have
    been read as integers: the loop over the sorted ids, then the stack. *)
Lemma get_img_none_run (r : SMCReader) (Camera_id : index) (Image_type : string)
    (cams cam g : node) (ks : list string) (ids : list Z) :
  file_getitem (smc r) "Camera" = Ok cams ->
  getitem cams (str Camera_id) = Ok cam ->
  getitem cam Image_type = Ok g ->
  keys g = Ok ks ->
  for_each (fun l => int (PyStr l)) ks = Ok ids ->
  get_img imdecode r Camera_id Image_type FrameNone
  = (rs <- for_each (fun fi => get_img_one imdecode r (str Camera_id) Image_type (PyInt fi))
             (sorted ids) ;;
     np_stack rs).
Proof.
  intros Hcams Hcam Hg Hks Hids. unfold get_img.
  rewrite (get_img_asserts_ok r _ _ FrameNone _ _ _ Hcams Hcam Hg eq_refl).
  cbn [bind]. rewrite (image_group_ok _ _ _ _ _ _ Hcams Hcam Hg). cbn [bind].
  rewrite Hks. cbn [bind]. now rewrite Hids.
Qed.

(** The explicit list, once the assertions have passed. *)
Lemma get_img_list_run (r : SMCReader) (Camera_id : index) (Image_type : string)
    (cams cam g : node) (l : list index) :
  file_getitem (smc r) "Camera" = Ok cams ->
  getitem cams (str Camera_id) = Ok cam ->
  getitem cam Image_type = Ok g ->
  get_img imdecode r Camera_id Image_type (FrameList l)
  = (rs <- for_each (get_img_one imdecode r (str Camera_id) Image_type) l ;;
     np_stack rs).
Proof.
  intros Hcams Hcam Hg. unfold get_img.
  now rewrite (get_img_asserts_ok r _ _ (FrameList l) _ _ _ Hcams Hcam Hg eq_refl).
Qed.

(** X1.  The batch of all frames returns: on a camera whose frames, at least
    one, are stored under the decimal form of their ids and all decode to
    images of one height and width, [get_img(C, T, None)] for ["color"] or
    ["mask"] returns a stack with one slice per stored frame, of shape
    (frames, height, width, 3) for ["color"] and (frames, height, width) for
    ["mask"]. *)
Theorem get_img_batch_total (r : SMCReader) (Camera_id : index) (Image_type : string)
    (cams cam g : node) (ks : list string) (h w : nat) :
  Image_type = "color" \/ Image_type = "mask" ->
  file_getitem (smc r) "Camera" = Ok cams ->
  getitem cams (str Camera_id) = Ok cam ->
  getitem cam Image_type = Ok g ->
  keys g = Ok ks ->
  ks <> [] ->
  (forall k, In k ks -> exists n d img_byte img,
      k = str_of_int n /\ getitem g k = Ok d /\ read d = Ok img_byte /\
      imdecode img_byte = Some img /\
      height img = h /\ width img = w /\ length (pixels img) = (h * w)%nat) ->
  exists st,
    get_img imdecode r Camera_id Image_type FrameNone = Ok (PArray st) /\
    shape st = length ks :: (if String.eqb Image_type "mask"
                             then [h; w] else [h; w; 3%nat]).
Proof.
  intros HT Hcams Hcam Hg Hks Hne Hall.
  destruct (for_each_int_keys ks) as [ids [Hids Hin]].
  { intros k Hk. destruct (Hall k Hk) as (n & _ & _ & _ & -> & _). now exists n. }
  assert (Hlen : length (sorted ids) = length ks).
  { rewrite <- (Permutation_length (sorted_perm ids)).
    now apply for_each_length in Hids. }
  destruct (batch_slices_arrays
              (fun fi => get_img_one imdecode r (str Camera_id) Image_type (PyInt fi))
              (sorted ids)
              (if String.eqb Image_type "mask" then [h; w] else [h; w; 3%nat]))
    as [st [Hst [Hsh _]]].
  - intros E. rewrite E in Hlen. destruct ks; [congruence | discriminate].
  - intros f Hf.
    apply (Permutation_in _ (Permutation_sym (sorted_perm ids))) in Hf.
    destruct (Hall _ (Hin f Hf))
      as (n & d & img_byte & img & _ & Hd & Hread & Hdec & Hh & Hw & Hpx).
    eexists. split.
    + apply (get_img_frame_ok r Camera_id (PyInt f) Image_type cams cam g d img_byte img);
        assumption.
    + rewrite <- Hh, <- Hw in *.
      destruct HT as [-> | ->]; cbn [String.eqb Ascii.eqb Bool.eqb andb].
      * split; [reflexivity | now apply of_bgr_well_shaped].
      * split; [reflexivity | now apply of_gray_well_shaped].
  - exists st. split; [|now rewrite <- Hlen].
    rewrite (get_img_none_run r Camera_id Image_type cams cam g ks ids Hcams Hcam Hg Hks Hids).
    exact Hst.
Qed.

End ImageBatches.

Lemma get_img_batch_total_witness :
  exists st,
    get_img Sample.raw_decode Sample.reader (PyStr "00") "mask" FrameNone = Ok (PArray st) /\
    shape st = [4%nat; 1%nat; 2%nat].
Proof.
  eapply (get_img_batch_total Sample.raw_decode Sample.reader (PyStr "00") "mask"
            _ _ Sample.frames ["0"; "1"; "10"; "2"] 1 2).
  - now right.
  - reflexivity.
  - reflexivity.
  - reflexivity.
  - reflexivity.
  - discriminate.
  - intros k Hk. simpl in Hk.
    destruct Hk as [<-|[<-|[<-|[<-|[]]]]].
    + exists 0. do 3 eexists. repeat split; vm_compute; reflexivity.
    + exists 1. do 3 eexists. repeat split; vm_compute; reflexivity.
    + exists 10. do 3 eexists. repeat split; vm_compute; reflexivity.
    + exists 2. do 3 eexists. repeat split; vm_compute; reflexivity.
Defined.

Lemma get_Calibration_all_total_witness :
  exists d,
    get_Calibration_all Sample.reader
    = (Ok (Some d), with_calibration_dict (Some d) Sample.reader).
Proof.
  apply (get_Calibration_all_total Sample.reader Sample.calibration_group ["00"; "05"; "18"]).
  - reflexivity.
  - vm_compute; reflexivity.
  - reflexivity.
  - intros c Hc. simpl in Hc.
    destruct Hc as [<-|[<-|[<-|[]]]]; eexists; vm_compute; reflexivity.
Defined.

(* ------------------------------------------------------------------ *)
(** ** More on the calibration accessors *)

(** A round of the loop of [get_Calibration_all], however it ends, leaves a
    calibration dict in the reader, with no key besides the camera of the
    round and the keys it had. *)
Lemma materialize_camera_keys (r : SMCReader) (ci : string) (d : dict calibration)
    (res : result unit) (r' : SMCReader) :
  materialize_camera ci (with_calibration_dict (Some d) r) = (res, r') ->
  exists d',
    r' = with_calibration_dict (Some d') r /\
    forall c, dict_get c d' <> None -> c = ci \/ dict_get c d <> None.
Proof.
  rewrite materialize_camera_run. cbv zeta.
  assert (H1 : forall c, dict_get c (dict_setdefault ci (@nil (string * ndarray)) d) <> None ->
                         c = ci \/ dict_get c d <> None).
  { intros c Hc. destruct (String.eqb_spec ci c) as [->|Hne]; [now left|].
    right. now rewrite dict_get_setdefault_other in Hc. }
  assert (H2 : forall x c,
             dict_get c (dict_set ci x (dict_setdefault ci (@nil (string * ndarray)) d)) <> None ->
             c = ci \/ dict_get c d <> None).
  { intros x c Hc. destruct (String.eqb_spec ci c) as [->|Hne]; [now left|].
    apply H1. now rewrite dict_get_set_other in Hc. }
  destruct (read_matrix ci "D" r) as [vD|];
    [|intros [= <- <-]; eexists; split; [reflexivity | exact H1]].
  destruct (read_matrix ci "K" r) as [vK|];
    [|intros [= <- <-]; eexists; split; [reflexivity | apply H2]].
  destruct (read_matrix ci "RT" r) as [vRT|];
    intros [= <- <-]; eexists; (split; [reflexivity | apply H2]).
Qed.

Lemma materialize_loop_keys (r : SMCReader) (cis : list string) :
  forall (d : dict calibration) (res : result unit) (r' : SMCReader),
    for_ cis materialize_camera (with_calibration_dict (Some d) r) = (res, r') ->
    exists d',
      r' = with_calibration_dict (Some d') r /\
      forall c, dict_get c d' <> None -> In c cis \/ dict_get c d <> None.
Proof.
  induction cis as [|ci cis IH]; intros d res r'.
  - intros [= <- <-]. exists d. split; [reflexivity | now right].
  - rewrite run_for_cons.
    destruct (materialize_camera ci (with_calibration_dict (Some d) r)) as [res1 r1] eqn:E.
    destruct (materialize_camera_keys _ _ _ _ _ E) as (d1 & -> & Hk1).
    destruct res1 as [[]|e].
    + intros Hloop. destruct (IH d1 res r' Hloop) as (d' & -> & Hk).
      exists d'. split; [reflexivity|]. intros c Hc.
      destruct (Hk c Hc) as [Hin|Hd1]; [left; now right|].
      destruct (Hk1 c Hd1) as [->|Hd]; [left; now left | now right].
    + intros [= <- <-]. exists d1. split; [reflexivity|]. intros c Hc.
      destruct (Hk1 c Hc) as [->|Hd]; [left; now left | now right].
Qed.

(** The first call of [get_Calibration_all], traced up to its loop. *)
Lemma get_Calibration_all_run (r : SMCReader) :
  __calibration_dict__ r = None ->
  get_Calibration_all r =
  match (g <- file_getitem (smc r) "Calibration" ;; keys g) with
  | Raise e => (Raise e, with_calibration_dict (Some []) r)
  | Ok cis =>
      match for_ cis materialize_camera (with_calibration_dict (Some []) r) with
      | (Ok _, r') => (Ok (__calibration_dict__ r'), r')
      | (Raise e, r') => (Raise e, r')
      end
  end.
Proof.
  intros Hnone. unfold get_Calibration_all. rewrite Hnone.
  unfold bindM at 1. unfold set_calibration_dict at 1.
  unfold bindM at 1. unfold eval at 1.
  change (smc (with_calibration_dict (Some []) r)) with (smc r).
  destruct (g <- file_getitem (smc r) "Calibration" ;; keys g) as [cis|e];
    [|reflexivity].
  unfold bindM at 1.
  match goal with |- context [for_ cis materialize_camera ?s] =>
    set (run := for_ cis materialize_camera s)
  end.
  assert (Hrun : for_ cis materialize_camera (with_calibration_dict (Some []) r) = run)
    by reflexivity.
  rewrite Hrun. destruct run as [[[]|e] r']; reflexivity.
Qed.

(** X3.  When the first call of [get_Calibration_all] on a reader returns, the
    mapping it returns and stores has an entry for every camera under
    Calibration and for no other key, and each entry holds exactly the matrices
    D, K and RT, in this order, as they are stored in the container. *)
Theorem get_Calibration_all_complete (r r1 : SMCReader) (g : node) (ks : list string)
    (m : option (dict calibration)) :
  __calibration_dict__ r = None ->
  file_getitem (smc r) "Calibration" = Ok g ->
  keys g = Ok ks ->
  get_Calibration_all r = (Ok m, r1) ->
  exists d,
    m = Some d /\
    r1 = with_calibration_dict (Some d) r /\
    (forall c, In c ks <-> dict_get c d <> None) /\
    (forall c cal, dict_get c d = Some cal ->
       exists vD vK vRT,
         read_matrix c "D" r = Ok vD /\
         read_matrix c "K" r = Ok vK /\
         read_matrix c "RT" r = Ok vRT /\
         cal = [("D", vD); ("K", vK); ("RT", vRT)]).
Proof.
  intros Hnone Hg Hks Hall.
  destruct (get_Calibration_all_first r m r1 Hnone Hall)
    as (g' & ks' & d & Hg' & Hks' & -> & -> & Hd & Hpresent).
  rewrite Hg in Hg'. injection Hg' as <-.
  rewrite Hks in Hks'. injection Hks' as <-.
  exists d. split; [reflexivity|]. split; [reflexivity|]. split.
  - intros c. split; [apply Hpresent|]. intros Hc.
    rewrite (get_Calibration_all_run r Hnone), Hg in Hall. cbn [bind] in Hall.
    rewrite Hks in Hall.
    destruct (for_ ks materialize_camera (with_calibration_dict (Some []) r))
      as [res r'] eqn:E.
    destruct (materialize_loop_keys r ks [] res r' E) as (d' & -> & Hk).
    destruct res as [[]|e]; [|discriminate].
    cbn [__calibration_dict__ with_calibration_dict] in Hall.
    injection Hall as Hd' _. subst d'.
    destruct (Hk c Hc) as [Hin|Habs]; [assumption | now elim Habs].
  - intros c cal Hc. apply fill_calibration_ok. now apply Hd.
Qed.

Lemma get_Calibration_all_complete_witness :
  (In "05" ["00"; "05"; "18"] <-> dict_get "05" Sample.calibration_mapping <> None) /\
  (In "17" ["00"; "05"; "18"] <-> dict_get "17" Sample.calibration_mapping <> None).
Proof.
  destruct (get_Calibration_all_complete Sample.reader
              (with_calibration_dict (Some Sample.calibration_mapping) Sample.reader)
              Sample.calibration_group ["00"; "05"; "18"]
              (Some Sample.calibration_mapping))
    as (d & Hm & _ & Hkeys & _).
  - reflexivity.
  - vm_compute; reflexivity.
  - reflexivity.
  - vm_compute; reflexivity.
  - injection Hm as <-. split; apply Hkeys.
Defined.

(** X4.  When the first call of [get_Calibration_all] on a reader raises,
    wherever it does, the reader is left with a calibration dict: the dict is
    empty when the Calibration section could not be listed, and the next call
    returns that dict without an error, whatever the container is then. *)
Theorem get_Calibration_all_failure_cached (r r1 : SMCReader) (e : exn) :
  __calibration_dict__ r = None ->
  get_Calibration_all r = (Raise e, r1) ->
  exists d,
    r1 = with_calibration_dict (Some d) r /\
    (forall f, get_Calibration_all (with_smc f r1) = (Ok (Some d), with_smc f r1)) /\
    (forall e', (g <- file_getitem (smc r) "Calibration" ;; keys g) = Raise e' ->
                d = [] /\ e = e').
Proof.
  intros Hnone. rewrite (get_Calibration_all_run r Hnone).
  destruct (g <- file_getitem (smc r) "Calibration" ;; keys g) as [cis|e0].
  - destruct (for_ cis materialize_camera (with_calibration_dict (Some []) r))
      as [res r'] eqn:E.
    destruct (materialize_loop_keys r cis [] res r' E) as (d & -> & _).
    destruct res as [[]|e1]; [discriminate|]. intros [= <- <-].
    exists d. split; [reflexivity|]. split; [reflexivity | discriminate].
  - intros [= <- <-]. exists []. split; [reflexivity|].
    split; [reflexivity|]. intros e' [= <-]. now split.
Qed.

Lemma get_Calibration_all_failure_cached_witness :
  let partial : dict calibration :=
    [("00", [("D", Sample.matrix 100); ("K", Sample.matrix 101); ("RT", Sample.matrix 102)]);
     ("01", [("D", Sample.matrix 7)])] in
  let r1 := with_calibration_dict (Some partial) Sample.broken_reader in
  get_Calibration_all Sample.broken_reader = (Raise (KeyError "K"), r1) /\
  get_Calibration_all (with_smc (close (smc r1)) r1)
  = (Ok (Some partial), with_smc (close (smc r1)) r1).
Proof.
  intros partial r1.
  assert (H : get_Calibration_all Sample.broken_reader = (Raise (KeyError "K"), r1))
    by (vm_compute; reflexivity).
  split; [exact H|].
  destruct (get_Calibration_all_failure_cached Sample.broken_reader r1 (KeyError "K")
              eq_refl H) as (d & Hr1 & Hnext & _).
  injection Hr1 as <-. apply Hnext.
Defined.

Lemma read_matrix_camera (r : SMCReader) (g cam : node) (ci mt : string) :
  file_getitem (smc r) "Calibration" = Ok g ->
  getitem g ci = Ok cam ->
  read_matrix ci mt r = (d <- getitem cam mt ;; read d).
Proof.
  intros Hg Hcam. unfold read_matrix. rewrite Hg. cbn [bind].
  now rewrite (getitem_open _ _ _ _ Hcam).
Qed.

(** X5.  For a camera that is a key under Calibration, [get_Calibration]
    returns exactly when the camera has the three datasets D, K and RT, and
    then returns their contents under these three names, in this order; when
    one of them is missing it raises the [KeyError] of the first missing one. *)
Theorem get_Calibration_matrices (r : SMCReader) (Camera_id : index) (g cam : node) :
  file_getitem (smc r) "Calibration" = Ok g ->
  getitem g (str Camera_id) = Ok cam ->
  (forall cal,
      get_Calibration r Camera_id = Ok cal <->
      exists aD vD aK vK aRT vRT,
        getitem cam "D" = Ok (Dataset aD vD) /\
        getitem cam "K" = Ok (Dataset aK vK) /\
        getitem cam "RT" = Ok (Dataset aRT vRT) /\
        cal = [("D", vD); ("K", vK); ("RT", vRT)]) /\
  (getitem cam "D" = Raise (KeyError "D") ->
   get_Calibration r Camera_id = Raise (KeyError "D")) /\
  (forall aD vD,
      getitem cam "D" = Ok (Dataset aD vD) ->
      getitem cam "K" = Raise (KeyError "K") ->
      get_Calibration r Camera_id = Raise (KeyError "K")) /\
  (forall aD vD aK vK,
      getitem cam "D" = Ok (Dataset aD vD) ->
      getitem cam "K" = Ok (Dataset aK vK) ->
      getitem cam "RT" = Raise (KeyError "RT") ->
      get_Calibration r Camera_id = Raise (KeyError "RT")).
Proof.
  intros Hg Hcam.
  assert (Hrun : get_Calibration r Camera_id
                 = fill_calibration r (str Camera_id) matrix_types []).
  { unfold get_Calibration. rewrite Hg. cbn [bind].
    now rewrite (getitem_in_keys _ _ _ _ Hcam). }
  rewrite Hrun. cbn [fill_calibration matrix_types].
  rewrite !(read_matrix_camera r g cam _ _ Hg Hcam).
  split; [|split; [|split]].
  - intros cal. split.
    + destruct (getitem cam "D") as [[aD vD|]|]; cbn [bind read]; try discriminate.
      destruct (getitem cam "K") as [[aK vK|]|]; cbn [bind read]; try discriminate.
      destruct (getitem cam "RT") as [[aRT vRT|]|]; cbn [bind read]; try discriminate.
      intros [= <-]. now exists aD, vD, aK, vK, aRT, vRT.
    + intros (aD & vD & aK & vK & aRT & vRT & -> & -> & -> & ->). reflexivity.
  - now intros ->.
  - intros aD vD -> ->. reflexivity.
  - intros aD vD aK vK -> -> ->. reflexivity.
Qed.

Lemma get_Calibration_matrices_witness :
  get_Calibration Sample.reader (PyStr "05")
  = Ok [("D", Sample.matrix 500); ("K", Sample.matrix 501); ("RT", Sample.matrix 502)] /\
  get_Calibration Sample.broken_reader (PyStr "01") = Raise (KeyError "K").
Proof.
  split.
  - apply (proj1 (get_Calibration_matrices Sample.reader (PyStr "05")
                    Sample.calibration_group (Sample.camera_calibration 500)
                    eq_refl eq_refl)).
    do 6 eexists. repeat split; reflexivity.
  - eapply (proj1 (proj2 (proj2 (get_Calibration_matrices Sample.broken_reader (PyStr "01")
                                   _ _ eq_refl eq_refl)))); reflexivity.
Defined.

(* ------------------------------------------------------------------ *)
(** ** Opening a container *)

(** X6.  [__init__] returns a reader exactly when the file is open, its root
    has the eight session attributes and its Camera group the three rig
    attributes.  The reader it returns holds the file, an empty calibration
    cache, and the values of these attributes: [get_actor_info] maps age,
    color, gender, height and weight, and [get_Camera_info] maps num_device,
    num_frame and resolution, to what the container stores. *)
Theorem init_reads_attributes (f : file) :
  ((exists r, __init__ f = Ok r) <->
   (forall k, In k root_attributes -> exists a, file_getattr f k = Ok a) /\
   (exists cams, file_getitem f "Camera" = Ok cams /\
      forall k, In k camera_attributes -> exists a, getattr cams k = Ok a)) /\
  (forall r,
      __init__ f = Ok r ->
      smc r = f /\
      __calibration_dict__ r = None /\
      file_getattr f "actor_id" = Ok (actor_id r) /\
      file_getattr f "performance_part" = Ok (performance_part r) /\
      file_getattr f "capture_date" = Ok (capture_date r) /\
      map fst (get_actor_info r) = ["age"; "color"; "gender"; "height"; "weight"] /\
      (forall k a, dict_get k (get_actor_info r) = Some a -> file_getattr f k = Ok a) /\
      map fst (get_Camera_info r) = camera_attributes /\
      (forall k a, dict_get k (get_Camera_info r) = Some a ->
         exists cams, file_getitem f "Camera" = Ok cams /\ getattr cams k = Ok a)).
Proof.
  unfold __init__.
  destruct (file_getattr f "actor_id") as [a1|e1] eqn:E1; cbn [bind].
  2: { split; [split|discriminate].
       - intros [r Hr]. discriminate.
       - intros [H _]. destruct (H "actor_id") as [a Ha]; [simpl; tauto|congruence]. }
  destruct (file_getattr f "performance_part") as [a2|e2] eqn:E2; cbn [bind].
  2: { split; [split|discriminate].
       - intros [r Hr]. discriminate.
       - intros [H _]. destruct (H "performance_part") as [a Ha]; [simpl; tauto|congruence]. }
  destruct (file_getattr f "capture_date") as [a3|e3] eqn:E3; cbn [bind].
  2: { split; [split|discriminate].
       - intros [r Hr]. discriminate.
       - intros [H _]. destruct (H "capture_date") as [a Ha]; [simpl; tauto|congruence]. }
  destruct (file_getattr f "age") as [a4|e4] eqn:E4; cbn [bind].
  2: { split; [split|discriminate].
       - intros [r Hr]. discriminate.
       - intros [H _]. destruct (H "age") as [a Ha]; [simpl; tauto|congruence]. }
  destruct (file_getattr f "color") as [a5|e5] eqn:E5; cbn [bind].
  2: { split; [split|discriminate].
       - intros [r Hr]. discriminate.
       - intros [H _]. destruct (H "color") as [a Ha]; [simpl; tauto|congruence]. }
  destruct (file_getattr f "gender") as [a6|e6] eqn:E6; cbn [bind].
  2: { split; [split|discriminate].
       - intros [r Hr]. discriminate.
       - intros [H _]. destruct (H "gender") as [a Ha]; [simpl; tauto|congruence]. }
  destruct (file_getattr f "height") as [a7|e7] eqn:E7; cbn [bind].
  2: { split; [split|discriminate].
       - intros [r Hr]. discriminate.
       - intros [H _]. destruct (H "height") as [a Ha]; [simpl; tauto|congruence]. }
  destruct (file_getattr f "weight") as [a8|e8] eqn:E8; cbn [bind].
  2: { split; [split|discriminate].
       - intros [r Hr]. discriminate.
       - intros [H _]. destruct (H "weight") as [a Ha]; [simpl; tauto|congruence]. }
  destruct (file_getitem f "Camera") as [cams|ec] eqn:Ec; cbn [bind].
  2: { split; [split|discriminate].
       - intros [r Hr]. discriminate.
       - intros [_ [cams [Hc _]]]. discriminate. }
  destruct (getattr cams "num_device") as [c1|] eqn:C1; cbn [bind].
  2: { split; [split|discriminate].
       - intros [r Hr]. discriminate.
       - intros [_ [cams' [[= <-] H]]].
         destruct (H "num_device") as [a Ha]; [simpl; tauto|congruence]. }
  destruct (getattr cams "num_frame") as [c2|] eqn:C2; cbn [bind].
  2: { split; [split|discriminate].
       - intros [r Hr]. discriminate.
       - intros [_ [cams' [[= <-] H]]].
         destruct (H "num_frame") as [a Ha]; [simpl; tauto|congruence]. }
  destruct (getattr cams "resolution") as [c3|] eqn:C3; cbn [bind].
  2: { split; [split|discriminate].
       - intros [r Hr]. discriminate.
       - intros [_ [cams' [[= <-] H]]].
         destruct (H "resolution") as [a Ha]; [simpl; tauto|congruence]. }
  split.
  - split; [intros _|intros _; eauto]. split.
    + intros k Hk. simpl in Hk.
      repeat (destruct Hk as [<-|Hk]; [eauto|]). contradiction.
    + exists cams. split; [reflexivity|]. intros k Hk. simpl in Hk.
      repeat (destruct Hk as [<-|Hk]; [eauto|]). contradiction.
  - intros r [= <-].
    cbn [smc __calibration_dict__ actor_id performance_part capture_date
         get_actor_info actor_info get_Camera_info Camera_info].
    repeat split; try assumption.
    + intros k a. cbn [dict_get].
      repeat match goal with |- context [String.eqb k ?s] =>
        destruct (String.eqb_spec k s) as [->|_]; [intros [= <-]; assumption|]
      end. discriminate.
    + intros k a H. exists cams. split; [reflexivity|]. revert H. cbn [dict_get].
      repeat match goal with |- context [String.eqb k ?s] =>
        destruct (String.eqb_spec k s) as [->|_]; [intros [= <-]; assumption|]
      end. discriminate.
Qed.

Lemma init_reads_attributes_witness :
  (exists r, __init__ (mk_file Sample.root true) = Ok r) /\
  dict_get "resolution" (get_Camera_info Sample.reader) = Some (AArr [2048; 2448]).
Proof.
  split.
  - apply (proj1 (init_reads_attributes (mk_file Sample.root true))). split.
    + intros k Hk. simpl in Hk.
      repeat (destruct Hk as [<-|Hk]; [eexists; reflexivity|]). contradiction.
    + eexists. split; [reflexivity|]. intros k Hk. simpl in Hk.
      repeat (destruct Hk as [<-|Hk]; [eexists; reflexivity|]). contradiction.
  - reflexivity.
Defined.

(* ------------------------------------------------------------------ *)
(** ** More on the image accessor *)

Lemma for_each_map {A B C} (f : B -> result C) (h : A -> B) (l : list A) :
  for_each f (map h l) = for_each (fun x => f (h x)) l.
Proof.
  induction l as [|x l IH]; simpl; [reflexivity | now rewrite IH].
Qed.

Lemma for_each_map_ok {A B} (f : A -> result B) (g : A -> B) (l : list A) :
  (forall x, In x l -> f x = Ok (g x)) -> for_each f l = Ok (map g l).
Proof.
  induction l as [|x l IH]; intros H; simpl; [reflexivity|].
  rewrite (H x (or_introl eq_refl)), IH; [reflexivity|].
  intros y Hy. apply H. now right.
Qed.

(** A batch whose calls all raise, raises: at its first call, or at the stack
    when there is no call. *)
Lemma batch_all_raise {A} (f : A -> result pyobj) (l : list A) :
  (forall x, exists e, f x = Raise e) ->
  exists e, (rs <- for_each f l ;; np_stack rs) = Raise e.
Proof.
  intros H. destruct l as [|x l]; simpl.
  - eexists. reflexivity.
  - destruct (H x) as [e ->]. eexists. reflexivity.
Qed.

Section ImageErrors.

Variable imdecode : ndarray -> option bgr_image.

(** The assertions of [get_img] do not tell one accepted selector from
    another. *)
Lemma get_img_asserts_selector (r : SMCReader) (Camera_id Image_type : string)
    (sel sel' : selector) :
  isinstance_frame sel = true ->
  isinstance_frame sel' = true ->
  get_img_asserts r Camera_id Image_type sel = get_img_asserts r Camera_id Image_type sel'.
Proof.
  intros H H'. unfold get_img_asserts. now rewrite H, H'.
Qed.


(** The call on one frame, for an image type that is neither ["color"] nor
    ["mask"], raises. *)
Lemma get_img_one_other_type (r : SMCReader) (Camera_id Image_type : string)
    (fi : index) :
  Image_type <> "color" -> Image_type <> "mask" ->
  exists e, get_img_one imdecode r Camera_id Image_type fi = Raise e.
Proof.
  intros Hc Hm. unfold get_img_one.
  destruct (get_img_asserts r Camera_id Image_type (FrameIdx fi)) as [[]|e];
    cbn [bind]; [|eauto].
  unfold get_img_frame.
  destruct (image_group r Camera_id Image_type) as [g|e]; cbn [bind]; [|eauto].
  destruct (in_keys (root (smc r)) g (str fi)) as [[]|e]; cbn [assert bind]; [|eauto|eauto].
  apply String.eqb_neq in Hc. apply String.eqb_neq in Hm.
  cbn [str_in existsb]. rewrite Hc, Hm. cbn [orb bind]. eauto.
Qed.

(** X8.  [get_img] serves ["color"] and ["mask"] only: for any other image
    type, even one that is stored under the camera (as ["audio"] is), the call
    raises for every camera, selector and container; it never returns. *)
Theorem get_img_other_type_raises (r : SMCReader) (Camera_id : index)
    (Image_type : string) (Frame_id : selector) :
  Image_type <> "color" -> Image_type <> "mask" ->
  exists e, get_img imdecode r Camera_id Image_type Frame_id = Raise e.
Proof.
  intros Hc Hm. unfold get_img.
  destruct (get_img_asserts r (str Camera_id) Image_type Frame_id) as [[]|e] eqn:E;
    cbn [bind]; [|eauto].
  destruct Frame_id as [|fi|l|t].
  - destruct (image_group r (str Camera_id) Image_type) as [g|e]; cbn [bind]; [|eauto].
    destruct (keys g) as [ks|e]; cbn [bind]; [|eauto].
    destruct (for_each (fun l => int (PyStr l)) ks) as [ids|e]; cbn [bind]; [|eauto].
    apply (batch_all_raise
             (fun fi => get_img_one imdecode r (str Camera_id) Image_type (PyInt fi))).
    intros fi. now apply get_img_one_other_type.
  - destruct (get_img_one_other_type r (str Camera_id) Image_type fi Hc Hm) as [e He].
    unfold get_img_one in He.
    rewrite E in He. cbn [bind] in He. eauto.
  - apply batch_all_raise. intros fi. now apply get_img_one_other_type.
  - eauto.
Qed.

(** X9.  When [cv2.imdecode] does not decode the stored bytes of a frame,
    [get_img] on that frame returns [None] for ["color"], without any error,
    and raises for ["mask"], where the maximum over the channel axis is taken
    of [None]. *)
Theorem get_img_undecodable (r : SMCReader) (Camera_id Frame_id : index)
    (Image_type : string) (cams cam g d : node) (img_byte : ndarray) :
  file_getitem (smc r) "Camera" = Ok cams ->
  getitem cams (str Camera_id) = Ok cam ->
  getitem cam Image_type = Ok g ->
  getitem g (str Frame_id) = Ok d ->
  read d = Ok img_byte ->
  imdecode img_byte = None ->
  (Image_type = "color" ->
   get_img imdecode r Camera_id Image_type (FrameIdx Frame_id) = Ok PNone) /\
  (Image_type = "mask" ->
   get_img imdecode r Camera_id Image_type (FrameIdx Frame_id) = Raise (AxisError 2 0)).
Proof.
  intros Hcams Hcam Hg Hd Hread Hdec.
  assert (Hrun : forall T, T = Image_type -> T = "color" \/ T = "mask" ->
            get_img imdecode r Camera_id T (FrameIdx Frame_id)
            = if String.eqb T "mask" then Raise (AxisError 2 0) else Ok PNone).
  { intros T -> HT. unfold get_img.
    rewrite (get_img_asserts_ok r _ _ (FrameIdx Frame_id) _ _ _ Hcams Hcam Hg eq_refl).
    cbn [bind]. unfold get_img_frame.
    rewrite (image_group_ok _ _ _ _ _ _ Hcams Hcam Hg). cbn [bind].
    rewrite (getitem_in_keys _ _ _ _ Hd). cbn [assert bind].
    destruct HT as [-> | ->]; cbn [str_in existsb String.eqb Ascii.eqb Bool.eqb orb andb];
      rewrite (getitem_open _ _ _ _ Hd); cbn [bind]; rewrite Hread; cbn [bind];
      unfold __read_color_from_bytes__; rewrite Hdec; reflexivity. }
  split; intros HT.
  - rewrite (Hrun Image_type eq_refl (or_introl HT)). now rewrite HT.
  - rewrite (Hrun Image_type eq_refl (or_intror HT)). now rewrite HT.
Qed.

End ImageErrors.

Lemma get_img_other_type_raises_witness :
  get_img Sample.raw_decode Sample.reader (PyStr "00") "audio" (FrameIdx (PyInt 0))
  = Raise (AttributeError "keys") /\
  exists e, get_img Sample.raw_decode Sample.reader (PyStr "00") "audio" FrameNone = Raise e.
Proof.
  split; [reflexivity|].
  apply (get_img_other_type_raises Sample.raw_decode Sample.reader (PyStr "00") "audio"
           FrameNone); discriminate.
Defined.


Lemma get_img_undecodable_witness :
  get_img (fun _ => None) Sample.reader (PyStr "00") "color" (FrameIdx (PyInt 1)) = Ok PNone /\
  get_img (fun _ => None) Sample.reader (PyStr "00") "mask" (FrameIdx (PyInt 1))
  = Raise (AxisError 2 0).
Proof.
  split.
  - eapply (proj1 (get_img_undecodable (fun _ => None) Sample.reader (PyStr "00") (PyInt 1)
                     "color" _ _ _ _ _ eq_refl eq_refl eq_refl eq_refl eq_refl eq_refl)).
    reflexivity.
  - eapply (proj2 (get_img_undecodable (fun _ => None) Sample.reader (PyStr "00") (PyInt 1)
                     "mask" _ _ _ _ _ eq_refl eq_refl eq_refl eq_refl eq_refl eq_refl)).
    reflexivity.
Defined.

Section ImageBatchErrors.

Variable imdecode : ndarray -> option bgr_image.

(** X10.  A batch fails fast: when the call on one frame of an explicit list
    raises and the calls on the frames before it return, [get_img] on the list
    raises that same exception; no partial batch is returned. *)
Theorem get_img_list_fail_fast (r : SMCReader) (Camera_id : index) (Image_type : string)
    (pre post : list index) (fi : index) (e : exn) :
  (forall f, In f pre -> exists o,
      get_img imdecode r Camera_id Image_type (FrameIdx f) = Ok o) ->
  get_img imdecode r Camera_id Image_type (FrameIdx fi) = Raise e ->
  get_img imdecode r Camera_id Image_type (FrameList (pre ++ fi :: post)) = Raise e.
Proof.
  intros Hpre Hfi. unfold get_img in *.
  rewrite (get_img_asserts_selector r (str Camera_id) Image_type
             (FrameList (pre ++ fi :: post)) (FrameIdx fi) eq_refl eq_refl).
  destruct (get_img_asserts r (str Camera_id) Image_type (FrameIdx fi)) as [[]|e'] eqn:E;
    cbn [bind] in *; [|exact Hfi].
  rewrite (for_each_raise (get_img_one imdecode r (str Camera_id) Image_type)
             pre post fi e); [reflexivity| |].
  - intros f Hf. destruct (Hpre f Hf) as [o Ho]. exists o.
    unfold get_img_one.
    rewrite (get_img_asserts_selector r (str Camera_id) Image_type
               (FrameIdx f) (FrameIdx fi) eq_refl eq_refl), E.
    rewrite (get_img_asserts_selector r (str Camera_id) Image_type
               (FrameIdx f) (FrameIdx fi) eq_refl eq_refl), E in Ho.
    exact Ho.
  - unfold get_img_one. now rewrite E.
Qed.

(** X11.  Frames of different shapes do not stack: when the calls on the
    frames of an explicit list all return arrays and one of them has another
    shape than the first, [get_img] on the list raises the [ValueError] of
    [np.stack]. *)
Theorem get_img_list_shape_mismatch (r : SMCReader) (Camera_id : index)
    (Image_type : string) (f0 : index) (rest : list index) (arr : index -> ndarray) :
  (forall f, In f (f0 :: rest) ->
      get_img imdecode r Camera_id Image_type (FrameIdx f) = Ok (PArray (arr f))) ->
  (exists f, In f rest /\ shape (arr f) <> shape (arr f0)) ->
  get_img imdecode r Camera_id Image_type (FrameList (f0 :: rest))
  = Raise (ValueError "all input arrays must have the same shape").
Proof.
  intros Hall [f [Hf Hshape]]. unfold get_img in *.
  rewrite (get_img_asserts_selector r (str Camera_id) Image_type
             (FrameList (f0 :: rest)) (FrameIdx f0) eq_refl eq_refl).
  pose proof (Hall f0 (or_introl eq_refl)) as H0.
  destruct (get_img_asserts r (str Camera_id) Image_type (FrameIdx f0)) as [[]|e'] eqn:E;
    cbn [bind] in *; [|discriminate].
  rewrite (for_each_map_ok (get_img_one imdecode r (str Camera_id) Image_type)
             (fun f => PArray (arr f)) (f0 :: rest)).
  - cbn [bind]. unfold np_stack. rewrite map_map.
    rewrite (map_ext (fun x => asanyarray (PArray (arr x))) arr) by reflexivity.
    cbn [map stack].
    assert (Hno : forallb (fun b => shape_eqb (shape b) (shape (arr f0))) (map arr rest)
                  = false).
    { destruct (forallb _ (map arr rest)) eqn:Eall; [|reflexivity]. exfalso.
      rewrite forallb_forall in Eall. apply Hshape. apply shape_eqb_eq.
      apply Eall. now apply in_map. }
    now rewrite Hno.
  - intros x Hx. specialize (Hall x Hx). unfold get_img_one.
    rewrite (get_img_asserts_selector r (str Camera_id) Image_type
               (FrameIdx x) (FrameIdx f0) eq_refl eq_refl), E.
    rewrite (get_img_asserts_selector r (str Camera_id) Image_type
               (FrameIdx x) (FrameIdx f0) eq_refl eq_refl), E in Hall.
    exact Hall.
Qed.

(** X12.  The omitted selector is the explicit list of all frame ids in
    ascending order: on a camera and an image type of the container whose
    frame keys read as the integers [ids], [get_img(C, T, None)] is
    [get_img(C, T, sorted(ids))], in what it returns as in what it raises. *)
Theorem get_img_none_is_sorted_list (r : SMCReader) (Camera_id : index)
    (Image_type : string) (cams cam g : node) (ks : list string) (ids : list Z) :
  file_getitem (smc r) "Camera" = Ok cams ->
  getitem cams (str Camera_id) = Ok cam ->
  getitem cam Image_type = Ok g ->
  keys g = Ok ks ->
  for_each (fun l => int (PyStr l)) ks = Ok ids ->
  get_img imdecode r Camera_id Image_type FrameNone
  = get_img imdecode r Camera_id Image_type (FrameList (map PyInt (sorted ids))).
Proof.
  intros Hcams Hcam Hg Hks Hids.
  rewrite (get_img_none_run imdecode r Camera_id Image_type cams cam g ks ids
             Hcams Hcam Hg Hks Hids).
  rewrite (get_img_list_run imdecode r Camera_id Image_type cams cam g _ Hcams Hcam Hg).
  now rewrite for_each_map.
Qed.

(** X13.  Two ways the omitted selector raises before any frame is read: on a
    camera and image type with no stored frame, [get_img(C, T, None)] raises the
    [ValueError] of [np.stack] on an empty sequence; and with a frame key that
    is no integer literal, it raises the [ValueError] of [int] on the first
    such key. *)
Theorem get_img_none_edge (r : SMCReader) (Camera_id : index) (Image_type : string)
    (cams cam g : node) :
  file_getitem (smc r) "Camera" = Ok cams ->
  getitem cams (str Camera_id) = Ok cam ->
  getitem cam Image_type = Ok g ->
  (keys g = Ok [] ->
   get_img imdecode r Camera_id Image_type FrameNone
   = Raise (ValueError "need at least one array to stack")) /\
  (forall (pre : list string) (k : string) (post : list string),
      keys g = Ok (pre ++ k :: post)%list ->
      (forall k', In k' pre -> exists n, int_of_str k' = Some n) ->
      int_of_str k = None ->
      get_img imdecode r Camera_id Image_type FrameNone
      = Raise (InvalidLiteral k)).
Proof.
  intros Hcams Hcam Hg. split.
  - intros Hks.
    now rewrite (get_img_none_run imdecode r Camera_id Image_type cams cam g [] []
                   Hcams Hcam Hg Hks eq_refl).
  - intros pre k post Hks Hpre Hk. unfold get_img.
    rewrite (get_img_asserts_ok r _ _ FrameNone _ _ _ Hcams Hcam Hg eq_refl).
    cbn [bind]. rewrite (image_group_ok _ _ _ _ _ _ Hcams Hcam Hg). cbn [bind].
    rewrite Hks. cbn [bind].
    rewrite (for_each_raise (fun l => int (PyStr l)) pre post k (InvalidLiteral k));
      [reflexivity| |].
    + intros k' Hk'. destruct (Hpre k' Hk') as [n Hn]. exists n.
      cbn [int]. now rewrite Hn.
    + cbn [int]. now rewrite Hk.
Qed.

End ImageBatchErrors.

Lemma get_img_list_fail_fast_witness :
  get_img Sample.raw_decode Sample.reader (PyStr "00") "color"
    (FrameList [PyInt 0; PyInt 3; PyInt 1])
  = Raise (AssertionError "Invalid Frame_id 3").
Proof.
  apply (get_img_list_fail_fast Sample.raw_decode Sample.reader (PyStr "00") "color"
           [PyInt 0] [PyInt 1] (PyInt 3)).
  - intros f [<-|[]]. eexists. reflexivity.
  - reflexivity.
Defined.

Lemma get_img_none_is_sorted_list_witness :
  get_img Sample.raw_decode Sample.reader (PyStr "00") "mask" FrameNone
  = get_img Sample.raw_decode Sample.reader (PyStr "00") "mask"
      (FrameList [PyInt 0; PyInt 1; PyInt 2; PyInt 10]).
Proof.
  exact (get_img_none_is_sorted_list Sample.raw_decode Sample.reader (PyStr "00") "mask"
           _ _ _ _ [0; 1; 10; 2] eq_refl eq_refl eq_refl eq_refl eq_refl).
Defined.


Lemma get_img_list_shape_mismatch_witness :
  get_img Sample.raw_decode Uneven.reader (PyStr "00") "color" (FrameList [PyInt 0; PyInt 1])
  = Raise (ValueError "all input arrays must have the same shape").
Proof.
  apply (get_img_list_shape_mismatch Sample.raw_decode Uneven.reader (PyStr "00") "color"
           (PyInt 0) [PyInt 1]
           (fun f => match f with
                     | PyInt 0 => mk_ndarray [1%nat; 2%nat; 3%nat]
                                    [Num 10; Num 200; Num 30; Num 7; Num 7; Num 9]
                     | _ => mk_ndarray [1%nat; 1%nat; 3%nat] [Num 1; Num 2; Num 3]
                     end)).
  - intros f [<-|[<-|[]]]; reflexivity.
  - exists (PyInt 1). split; [now left | discriminate].
Defined.

Lemma get_img_none_edge_witness :
  get_img Sample.raw_decode Sample.reader (PyStr "05") "color" FrameNone
  = Raise (ValueError "need at least one array to stack") /\
  get_img Sample.raw_decode Uneven.reader (PyStr "00") "mask" FrameNone
  = Raise (InvalidLiteral "preview").
Proof.
  split.
  - eapply (proj1 (get_img_none_edge Sample.raw_decode Sample.reader (PyStr "05") "color"
                     _ _ _ eq_refl eq_refl eq_refl)).
    reflexivity.
  - eapply (proj2 (get_img_none_edge Sample.raw_decode Uneven.reader (PyStr "00") "mask"
                     _ _ _ eq_refl eq_refl eq_refl) ["0"] "preview" []).
    + reflexivity.
    + intros k [<-|[]]. exists 0. reflexivity.
    + reflexivity.
Defined.

(* ------------------------------------------------------------------ *)
(** ** More on the keypoint accessors *)

Lemma str_of_int_inj (m n : Z) : str_of_int m = str_of_int n -> m = n.
Proof.
  intros H. pose proof (int_of_str_of_int m) as Hm.
  rewrite H, int_of_str_of_int in Hm. now injection Hm.
Qed.

(** The ints whose decimal form is a detection camera are 18 to 32. *)
Lemma detection_camera_int (n : Z) :
  str_in (str_of_int n) detection_cameras = true <-> 18 <= n <= 32.
Proof.
  split.
  - intros H. apply str_in_In in H. unfold detection_cameras in H.
    apply in_map_iff in H as [m [Hm Hin]].
    unfold range in Hin. apply in_map_iff in Hin as [k [<- Hk]].
    apply in_seq in Hk. simpl in Hk.
    assert (Hfmt : str_of_int (18 + Z.of_nat k) = fmt_02d (18 + Z.of_nat k))
      by (apply str_of_int_digits; lia).
    rewrite <- Hfmt in Hm. apply str_of_int_inj in Hm. lia.
  - intros H.
    apply (range_forallb (fun n => str_in (str_of_int n) detection_cameras) 18 33);
      [reflexivity | lia].
Qed.

(** The call of [get_Keypoints2d] on one frame, for a detection camera that has
    a subtree. *)
Lemma get_Keypoints2d_one_run (r : SMCReader) (Camera_id : string) (g cam : node)
    (fi : index) :
  str_in Camera_id detection_cameras = true ->
  file_getitem (smc r) "Keypoints2d" = Ok g ->
  getitem g Camera_id = Ok cam ->
  get_Keypoints2d_one r Camera_id fi
  = (d <- open_path (root (smc r)) cam (str fi) ;; Ok (PHandle d)).
Proof.
  intros Hdet Hg Hcam. unfold get_Keypoints2d_one.
  rewrite (get_Keypoints2d_checks_present r _ (FrameIdx fi) g cam Hdet eq_refl Hg Hcam).
  cbn [bind negb]. unfold get_Keypoints2d_frame. rewrite Hg. cbn [bind].
  now rewrite (getitem_open _ _ _ _ Hcam).
Qed.

(** X14.  An int camera id passes the camera validation of [get_Keypoints2d]
    exactly when it is from 18 to 32: outside, the call raises "Invalid
    Camera_id" for every selector and container; inside, the call with the
    selector omitted raises no assertion at all. *)
Theorem get_Keypoints2d_int_camera (r : SMCReader) (n : Z) :
  (~ 18 <= n <= 32 ->
   forall Frame_id,
     get_Keypoints2d r (PyInt n) Frame_id
     = Raise (AssertionError ("Invalid Camera_id " ++ str_of_int n))) /\
  (18 <= n <= 32 ->
   forall msg, get_Keypoints2d r (PyInt n) FrameNone <> Raise (AssertionError msg)).
Proof.
  split.
  - intros Hout sel. unfold get_Keypoints2d, get_Keypoints2d_checks. cbn [str].
    destruct (str_in (str_of_int n) detection_cameras) eqn:E; [|reflexivity].
    apply detection_camera_int in E. contradiction.
  - intros Hin msg. apply detection_camera_int in Hin.
    unfold get_Keypoints2d, get_Keypoints2d_checks. cbn [str].
    rewrite Hin. cbn [assert bind isinstance_frame].
    destruct (file_getitem (smc r) "Keypoints2d") as [g|e] eqn:Eg; cbn [bind].
    + destruct (in_keys (root (smc r)) g (str_of_int n)) as [[]|e] eqn:E;
        cbn [bind negb]; try discriminate.
      * destruct (open_path (root (smc r)) g (str_of_int n)) as [cam|e] eqn:Ec;
          cbn [bind]; [discriminate|].
        intros [= ->]. now apply open_path_no_assertion in Ec.
      * intros [= ->]. destruct g; discriminate.
    + intros [= ->]. unfold file_getitem in Eg.
      destruct (is_open (smc r)); [|discriminate].
      now apply getitem_no_assertion in Eg.
Qed.

Lemma get_Keypoints2d_int_camera_witness :
  get_Keypoints2d Sample.reader (PyInt 33) (FrameIdx (PyInt 0))
  = Raise (AssertionError "Invalid Camera_id 33") /\
  forall msg, get_Keypoints2d Sample.reader (PyInt 18) FrameNone <> Raise (AssertionError msg).
Proof.
  split.
  - apply (proj1 (get_Keypoints2d_int_camera Sample.reader 33)). lia.
  - apply (proj2 (get_Keypoints2d_int_camera Sample.reader 18)). lia.
Defined.

(** X15.  [get_Keypoints2d] does not validate the frame id: for a detection
    camera that has a subtree, a frame id that is a plain name, as the decimal
    form of an int is, and is no key of the subtree raises the [KeyError] of the
    lookup, not an assertion, and an explicit list raises it at its first such
    element. *)
Theorem get_Keypoints2d_absent_frame (r : SMCReader) (Camera_id : index)
    (g cam : node) (frames : list string) :
  str_in (str Camera_id) detection_cameras = true ->
  file_getitem (smc r) "Keypoints2d" = Ok g ->
  getitem g (str Camera_id) = Ok cam ->
  keys cam = Ok frames ->
  (forall fi,
      plain_name (str fi) = true ->
      str_in (str fi) frames = false ->
      get_Keypoints2d r Camera_id (FrameIdx fi) = Raise (KeyError (str fi))) /\
  (forall n,
      str_in (str_of_int n) frames = false ->
      get_Keypoints2d r Camera_id (FrameIdx (PyInt n)) = Raise (KeyError (str_of_int n))) /\
  (forall pre fi post,
      (forall f, In f pre -> plain_name (str f) = true /\ str_in (str f) frames = true) ->
      plain_name (str fi) = true ->
      str_in (str fi) frames = false ->
      get_Keypoints2d r Camera_id (FrameList (pre ++ fi :: post))
      = Raise (KeyError (str fi))).
Proof.
  intros Hdet Hg Hcam Hframes.
  assert (Habs : forall fi, plain_name (str fi) = true -> str_in (str fi) frames = false ->
            get_Keypoints2d_one r (str Camera_id) fi = Raise (KeyError (str fi))).
  { intros fi Hplain Hfi. rewrite (get_Keypoints2d_one_run r _ g cam fi Hdet Hg Hcam).
    rewrite (open_path_plain _ _ _ Hplain).
    now rewrite (keys_not_getitem cam (str fi) frames Hframes Hfi). }
  split; [|split].
  - intros fi Hplain Hfi. exact (Habs fi Hplain Hfi).
  - intros n Hn. exact (Habs (PyInt n) (str_of_int_plain n) Hn).
  - intros pre fi post Hpre Hplain Hfi. unfold get_Keypoints2d.
    rewrite (get_Keypoints2d_checks_present r _ (FrameList (pre ++ fi :: post)) g cam
               Hdet eq_refl Hg Hcam).
    cbn [bind negb].
    rewrite (for_each_raise (get_Keypoints2d_one r (str Camera_id)) pre post fi
               (KeyError (str fi))); [reflexivity| |now apply Habs].
    intros f Hf. rewrite (get_Keypoints2d_one_run r _ g cam f Hdet Hg Hcam).
    destruct (Hpre f Hf) as [Hpf Hinf].
    rewrite (open_path_plain _ _ _ Hpf).
    destruct (keys_getitem cam (str f) frames Hpf Hframes Hinf) as [d ->].
    eexists. reflexivity.
Qed.

Lemma get_Keypoints2d_absent_frame_witness :
  get_Keypoints2d Sample.reader (PyInt 18) (FrameIdx (PyInt 3)) = Raise (KeyError "3") /\
  get_Keypoints2d Sample.reader (PyInt 18) (FrameIdx (PyStr "03")) = Raise (KeyError "03") /\
  get_Keypoints2d Sample.reader (PyInt 18) (FrameList [PyInt 0; PyInt 3; PyInt 1])
  = Raise (KeyError "3").
Proof.
  pose proof (get_Keypoints2d_absent_frame Sample.reader (PyInt 18) _ _ ["0"; "1"; "10"; "2"]
                eq_refl eq_refl eq_refl eq_refl) as (Hone & Hint & Hlist).
  split; [|split].
  - exact (Hint 3 eq_refl).
  - exact (Hone (PyStr "03") eq_refl eq_refl).
  - apply (Hlist [PyInt 0] (PyInt 3) [PyInt 1]); [|reflexivity|reflexivity].
    intros f [<-|[]]. split; reflexivity.
Defined.

(** X16.  In [get_Keypoints3d] a frame index may be given as an int or as any
    integer literal of it: the str is read with [int], so ["1"], [" 1 "] and
    ["01"] all address frame 1, and the decimal form of an int addresses what
    the int does.  A str that is no integer literal raises the [ValueError] of
    [int] on that str. *)
Theorem get_Keypoints3d_str_index (r : SMCReader) (s : string) :
  (forall n, int_of_str s = Some n ->
     get_Keypoints3d r (FrameIdx (PyStr s)) = get_Keypoints3d r (FrameIdx (PyInt n))) /\
  (forall n, get_Keypoints3d r (FrameIdx (PyStr (str_of_int n)))
             = get_Keypoints3d r (FrameIdx (PyInt n))) /\
  (int_of_str s = None ->
   get_Keypoints3d r (FrameIdx (PyStr s)) = Raise (InvalidLiteral s)) /\
  (int_of_str "1" = Some 1 /\ int_of_str " 1 " = Some 1 /\ int_of_str "01" = Some 1 /\
   int_of_str "+1_0" = Some 10 /\ int_of_str "-1" = Some (-1) /\
   int_of_str "" = None /\ int_of_str "1 0" = None /\ int_of_str "1_" = None /\
   int_of_str "- 1" = None /\ int_of_str "1.0" = None /\
   int_of_str (String (ascii_of_nat 28) "1") = None /\
   int_of_str (String (ascii_of_nat 160) "1") = Some 1).
Proof.
  split; [|split; [|split]].
  - intros n Hn. cbn [get_Keypoints3d]. unfold get_Keypoints3d_frame. cbn [int].
    now rewrite Hn.
  - intros n. cbn [get_Keypoints3d]. unfold get_Keypoints3d_frame. cbn [int].
    now rewrite int_of_str_of_int.
  - intros Hs. cbn [get_Keypoints3d]. unfold get_Keypoints3d_frame. cbn [int].
    now rewrite Hs.
  - repeat split.
Qed.

Lemma get_Keypoints3d_str_index_witness :
  get_Keypoints3d Sample.reader (FrameIdx (PyStr " 01 "))
  = Ok (PHandle (Sample.keypoints 2000)) /\
  get_Keypoints3d Sample.reader (FrameIdx (PyStr "one")) = Raise (InvalidLiteral "one") /\
  get_Keypoints3d Sample.reader (FrameIdx (PyStr (String (ascii_of_nat 28) "1")))
  = Raise (InvalidLiteral (String (ascii_of_nat 28) "1")).
Proof.
  split; [|split].
  - rewrite (proj1 (get_Keypoints3d_str_index Sample.reader " 01 ") 1 eq_refl).
    reflexivity.
  - apply (proj1 (proj2 (proj2 (get_Keypoints3d_str_index Sample.reader "one")))).
    reflexivity.
  - apply (proj1 (proj2 (proj2 (get_Keypoints3d_str_index Sample.reader
                                   (String (ascii_of_nat 28) "1"))))).
    reflexivity.
Defined.

(** X17.  What [get_Keypoints3d] checks on a single index, and in which
    order: a negative index raises "Invalid frame_index" before the container
    is looked at, whatever the container; for an index that is not negative
    the frame count is read, and a Keypoints3d section without the attribute
    num_frame raises its [KeyError]; an index within the frame count that is
    not stored raises the [KeyError] of the lookup. *)
Theorem get_Keypoints3d_single_checks (r : SMCReader) (i : Z) :
  (i < 0 ->
   forall f, get_Keypoints3d (with_smc f r) (FrameIdx (PyInt i))
             = Raise (AssertionError ("Invalid frame_index " ++ str_of_int i))) /\
  (forall g,
      0 <= i ->
      file_getitem (smc r) "Keypoints3d" = Ok g ->
      getattr g "num_frame" = Raise (KeyError "num_frame") ->
      get_Keypoints3d r (FrameIdx (PyInt i)) = Raise (KeyError "num_frame")) /\
  (forall g n frames,
      0 <= i < n ->
      file_getitem (smc r) "Keypoints3d" = Ok g ->
      getattr g "num_frame" = Ok (AInt n) ->
      keys g = Ok frames ->
      str_in (str_of_int i) frames = false ->
      get_Keypoints3d r (FrameIdx (PyInt i)) = Raise (KeyError (str_of_int i))).
Proof.
  split; [|split].
  - intros Hi f. cbn [get_Keypoints3d]. unfold get_Keypoints3d_frame. cbn [int bind].
    assert ((i >=? 0) = false) as -> by lia. reflexivity.
  - intros g Hi Hg Hattr. cbn [get_Keypoints3d]. unfold get_Keypoints3d_frame.
    cbn [int bind]. assert ((i >=? 0) = true) as -> by lia.
    rewrite Hg. cbn [bind]. now rewrite Hattr.
  - intros g n frames Hi Hg Hattr Hframes Hout. cbn [get_Keypoints3d].
    unfold get_Keypoints3d_frame. cbn [int bind].
    assert ((i >=? 0) = true) as -> by lia.
    rewrite Hg. cbn [bind]. rewrite Hattr. cbn [bind int_lt_attr].
    assert ((i <? n) = true) as -> by lia. cbn [assert bind].
    rewrite (open_path_plain _ _ _ (str_of_int_plain i)).
    now rewrite (keys_not_getitem g (str_of_int i) frames Hframes Hout).
Qed.

Lemma get_Keypoints3d_single_checks_witness :
  get_Keypoints3d (with_smc (close (smc Sample.reader)) Sample.reader) (FrameIdx (PyInt (-1)))
  = Raise (AssertionError "Invalid frame_index -1") /\
  get_Keypoints3d (with_smc (mk_file (Group [] [("Keypoints3d", Group [("num_frame", AInt 3)]
                                                  [("0", Sample.keypoints 0)])]) true)
                     Sample.reader) (FrameIdx (PyInt 2))
  = Raise (KeyError "2").
Proof.
  split.
  - apply (proj1 (get_Keypoints3d_single_checks Sample.reader (-1))). lia.
  - eapply (proj2 (proj2 (get_Keypoints3d_single_checks _ 2)) _ 3).
    + lia.
    + reflexivity.
    + reflexivity.
    + reflexivity.
    + reflexivity.
Defined.

(** The call of [get_Keypoints3d] on one index within the declared frame
    count. *)
Lemma get_Keypoints3d_frame_in_range (r : SMCReader) (g : node) (n i : Z) (fi : index) :
  file_getitem (smc r) "Keypoints3d" = Ok g ->
  getattr g "num_frame" = Ok (AInt n) ->
  int fi = Ok i ->
  0 <= i < n ->
  get_Keypoints3d_frame r fi = (d <- getitem g (str_of_int i) ;; Ok (PHandle d)).
Proof.
  intros Hg Hn Hfi Hi. unfold get_Keypoints3d_frame. rewrite Hfi. cbn [bind].
  assert ((i >=? 0) = true) as -> by lia.
  rewrite Hg. cbn [bind]. rewrite Hn. cbn [bind int_lt_attr].
  assert ((i <? n) = true) as -> by lia. cbn [assert bind].
  now rewrite (open_path_plain _ _ _ (str_of_int_plain i)).
Qed.

(** X18.  An explicit list of indices, all within the declared frame count
    and stored as arrays of one shape, makes [get_Keypoints3d] return their
    stack in the order of the list: one slice per element, the [k]-th slice
    being the array stored for the [k]-th element. *)
Theorem get_Keypoints3d_list_stack (r : SMCReader) (g : node) (n : Z)
    (l : list index) (sh : list nat) :
  file_getitem (smc r) "Keypoints3d" = Ok g ->
  getattr g "num_frame" = Ok (AInt n) ->
  l <> [] ->
  (forall fi, In fi l -> exists i a v,
      int fi = Ok i /\ 0 <= i < n /\
      getitem g (str_of_int i) = Ok (Dataset a v) /\ shape v = sh /\ well_shaped v) ->
  exists st,
    get_Keypoints3d r (FrameList l) = Ok (PArray st) /\
    shape st = length l :: sh /\
    forall k, (k < length l)%nat ->
      exists i a,
        int (nth k l (PyInt 0)) = Ok i /\
        getitem g (str_of_int i) = Ok (Dataset a (slice k st)).
Proof.
  intros Hg Hn Hne Hall.
  destruct (batch_slices (get_Keypoints3d_frame r) l sh Hne) as [st [Hst [Hsh Hsl]]].
  { intros fi Hfi. destruct (Hall fi Hfi) as (i & a & v & Hi & Hr & Hd & Hs & Hw).
    exists (PHandle (Dataset a v)).
    rewrite (get_Keypoints3d_frame_in_range r g n i fi Hg Hn Hi Hr), Hd. now split. }
  exists st. split; [exact Hst|]. split; [assumption|].
  intros k Hk. destruct (Hsl k (PyInt 0) Hk) as [o [Ho Hs]].
  destruct (Hall (nth k l (PyInt 0))) as (i & a & v & Hi & Hr & Hd & _);
    [now apply nth_In|].
  rewrite (get_Keypoints3d_frame_in_range r g n i _ Hg Hn Hi Hr), Hd in Ho.
  injection Ho as <-. exists i, a. split; [assumption|]. simpl in Hs. now rewrite Hs.
Qed.

Lemma get_Keypoints3d_list_stack_witness :
  exists st,
    get_Keypoints3d Sample.reader (FrameList [PyInt 1; PyStr "0"]) = Ok (PArray st) /\
    shape st = [2%nat; 2%nat] /\
    data st = [Num 2000; Num 2001; Num 1000; Num 1001].
Proof.
  destruct (get_Keypoints3d_list_stack Sample.reader _ 2 [PyInt 1; PyStr "0"] [2%nat]
              eq_refl eq_refl) as [st [Hst [Hsh _]]].
  - discriminate.
  - intros fi [<-|[<-|[]]].
    + exists 1. do 2 eexists. repeat split; try reflexivity; lia.
    + exists 0. do 2 eexists. repeat split; try reflexivity; lia.
  - exists st. split; [exact Hst|]. split; [exact Hsh|].
    assert (H : get_Keypoints3d Sample.reader (FrameList [PyInt 1; PyStr "0"])
                = Ok (PArray (mk_ndarray [2%nat; 2%nat]
                                [Num 2000; Num 2001; Num 1000; Num 1001])))
      by reflexivity.
    rewrite H in Hst. injection Hst as <-. reflexivity.
Defined.

(* ------------------------------------------------------------------ *)
(** ** More on the audio accessor *)

(** X19.  Only the part of the performance part before its first underscore
    decides whether [get_audio] looks for audio: with no ["s"] in that part the
    call returns [None] whatever follows the underscore and whatever the
    container is; with an ["s"] in it the call is the lookup of
    Camera/00/audio, and raises the [KeyError] of that lookup when the
    container has no such node. *)
Theorem get_audio_first_token (r : SMCReader) (tok rest : string) :
  contains "_" tok = false ->
  performance_part r = AStr tok \/ performance_part r = AStr (tok ++ String "_" rest) ->
  (contains "s" tok = false -> forall f, get_audio (with_smc f r) = Ok PNone) /\
  (contains "s" tok = true ->
   get_audio r = (cams <- file_getitem (smc r) "Camera" ;;
                  cam <- getitem cams "00" ;;
                  data <- getitem cam "audio" ;;
                  Ok (PHandle data))).
Proof.
  intros Htok Hpart.
  destruct (split_head_token tok rest Htok) as [H1 H2].
  split.
  - intros Hs f. unfold get_audio.
    change (performance_part (with_smc f r)) with (performance_part r).
    destruct Hpart as [-> | ->]; [rewrite H1 | rewrite H2]; now rewrite Hs.
  - intros Hs. unfold get_audio.
    destruct Hpart as [-> | ->]; [rewrite H1 | rewrite H2]; now rewrite Hs.
Qed.

Lemma get_audio_first_token_witness :
  (forall f, get_audio (with_smc f (Sample.reader_of (mk_file Sample.root true) "e0_s1"))
             = Ok PNone) /\
  get_audio Uneven.reader = Raise (KeyError "audio").
Proof.
  split.
  - apply (proj1 (get_audio_first_token
                    (Sample.reader_of (mk_file Sample.root true) "e0_s1") "e0" "s1"
                    eq_refl (or_intror eq_refl))).
    reflexivity.
  - rewrite (proj2 (get_audio_first_token Uneven.reader "s1" "all"
                      eq_refl (or_intror eq_refl)) eq_refl).
    reflexivity.
Defined.
